(** * Kortix: MarkItDown REST service and YouTube transcript scripts

    A shallow embedding of the Python sources of the repository:
    - [apps/markitdown/server.py]: the Flask handlers of [/convert] and
      [/convert/url];
    - [test_ytdlp_poc.py], [test_ytdlp_advanced.py]: the yt-dlp subtitle
      extractors (artifact cleaning, failure classification, pacing);
    - [test-youtube-fix.py], [test-youtube-transcript-debug.py],
      [test-youtube-real.py]: the transcript search loops and their
      acceptance checks.

    Python [str] values are modelled by [string]: a sequence of characters
    whose code points lie below 256.  Exceptions are values of a sum type,
    [try]/[except] is a case analysis on it, and every external call
    (converter, sub-process, transcript API) is an explicit argument whose
    invocations are recorded in a trace. *)

From Stdlib Require Import List String Ascii Bool Arith Lia ZArith DecimalString.
Import ListNotations.
Open Scope string_scope.

(** ** Python string primitives used by the sources *)

Module PyStr.

Definition LF : ascii := Ascii.ascii_of_nat 10.

(** [sub in s] *)
Fixpoint contains (sub s : string) : bool :=
  if String.prefix sub s then true
  else match s with
       | EmptyString => false
       | String _ s' => contains sub s'
       end.

(** [s.startswith(p)] *)
Definition startswith (s p : string) : bool := String.prefix p s.

(** [s.split(sep)] for a one-character separator: never returns the empty
    list, and yields one more field than there are separators. *)
Fixpoint split (sep : ascii) (s : string) : list string :=
  match s with
  | EmptyString => [EmptyString]
  | String c s' =>
      if Ascii.eqb c sep then EmptyString :: split sep s'
      else match split sep s' with
           | [] => [String c EmptyString]
           | l :: ls => String c l :: ls
           end
  end.

(** [sep.join(xs)] *)
Fixpoint join (sep : string) (xs : list string) : string :=
  match xs with
  | [] => EmptyString
  | [x] => x
  | x :: rest => x ++ sep ++ join sep rest
  end.

(** [c.isspace()] on code points below 256: TAB, LF, VT, FF, CR, the four
    separators FS..US, SPACE, NEL and NBSP. *)
Definition isspace (c : ascii) : bool :=
  let n := Ascii.nat_of_ascii c in
  ((9 <=? n) && (n <=? 13) || (28 <=? n) && (n <=? 32)
   || (n =? 133) || (n =? 160))%nat.

(** [c.isdigit()] on code points below 256: the ten decimal digits and the
    superscripts two, three and one. *)
Definition isdigit_char (c : ascii) : bool :=
  let n := Ascii.nat_of_ascii c in
  ((48 <=? n) && (n <=? 57) || (n =? 178) || (n =? 179) || (n =? 185))%nat.

Fixpoint all_chars (p : ascii -> bool) (s : string) : bool :=
  match s with
  | EmptyString => true
  | String c s' => p c && all_chars p s'
  end.

Definition is_empty (s : string) : bool :=
  match s with EmptyString => true | _ => false end.

(** [s.isdigit()]: false on the empty string *)
Definition isdigit (s : string) : bool :=
  negb (is_empty s) && all_chars isdigit_char s.

Fixpoint lstrip (s : string) : string :=
  match s with
  | EmptyString => EmptyString
  | String c s' => if isspace c then lstrip s' else s
  end.

Fixpoint rstrip (s : string) : string :=
  match s with
  | EmptyString => EmptyString
  | String c s' =>
      let r := rstrip s' in
      if isspace c && is_empty r then EmptyString else String c r
  end.

(** [s.strip()] *)
Definition strip (s : string) : string := rstrip (lstrip s).

(** [s.replace(a, b)] for one-character [a] and [b] *)
Fixpoint replace_char (a b : ascii) (s : string) : string :=
  match s with
  | EmptyString => EmptyString
  | String c s' =>
      String (if Ascii.eqb c a then b else c) (replace_char a b s')
  end.

(** [len(s)] *)
Definition len (s : string) : nat := String.length s.

(** [c * n] *)
Fixpoint repeat_char (c : ascii) (n : nat) : string :=
  match n with
  | O => EmptyString
  | S k => String c (repeat_char c k)
  end.

(** [s.split(sep)] for a separator of any positive length: the separators
    are found from left to right and do not overlap.  [skip] counts the
    characters of a separator just found that are still to be passed. *)
Fixpoint split_from (sep : string) (skip : nat) (s : string) : list string :=
  match s with
  | EmptyString => [EmptyString]
  | String c s' =>
      match skip with
      | S k => split_from sep k s'
      | O =>
          if String.prefix sep s
          then EmptyString :: split_from sep (String.length sep - 1) s'
          else match split_from sep 0 s' with
               | [] => [String c EmptyString]
               | l :: ls => String c l :: ls
               end
      end
  end.

Definition split_str (sep s : string) : list string := split_from sep 0 s.

End PyStr.

(** Python exceptions: [type(e).__name__] and [str(e)]. *)
Record PyExn : Type := mkExn { exn_type : string; exn_msg : string }.

(** The outcome of a call that may raise. *)
Definition outcome (A : Type) : Type := (PyExn + A)%type.

(** ** Subtitle artifacts: [test_ytdlp_poc.py], [test_ytdlp_advanced.py] *)

Module Subtitles.
Import PyStr.

(** The condition of the comprehension of [extract_transcript_vtt]
    (and of [_run_command]):
    [line and not line.startswith('WEBVTT') and '-->' not in line
     and not line.strip().isdigit()]. *)
Definition keep_vtt_line (line : string) : bool :=
  negb (is_empty line)
  && negb (startswith line "WEBVTT")
  && negb (contains "-->" line)
  && negb (isdigit (strip line)).

(** The condition of the comprehension of [extract_transcript_srt]:
    [line and not line.strip().isdigit() and '-->' not in line]. *)
Definition keep_srt_line (line : string) : bool :=
  negb (is_empty line)
  && negb (isdigit (strip line))
  && negb (contains "-->" line).

(** [lines = content.split('\n'); text_lines = [...];
    clean_text = ' '.join(text_lines)] *)
Definition clean_vtt (content : string) : string :=
  let lines := split LF content in
  let text_lines := filter keep_vtt_line lines in
  join " " text_lines.

Definition clean_srt (content : string) : string :=
  let lines := split LF content in
  let text_lines := filter keep_srt_line lines in
  join " " text_lines.

End Subtitles.

(** ** The yt-dlp runner: [test_ytdlp_advanced.py] *)

Module YtDlp.
Import PyStr.

(** [subprocess.CompletedProcess] with captured text output. *)
Record CompletedProcess : Type := mkProc {
  returncode : Z;
  proc_stdout : string;
  proc_stderr : string
}.

(** A file found by [output_dir.glob]: its path, and what [read_text()]
    and [stat().st_size] do on it: each raises or returns. *)
Record VttFile : Type := mkVtt {
  vtt_path : string;
  read_text : outcome string;
  st_size : outcome nat
}.

(** The dictionary returned by a strategy; a key that the branch does not
    set is [None]. *)
Record StrategyResult : Type := mkResult {
  success : bool;
  strategy : string;
  file : option string;
  text : option string;
  length : option nat;
  error : option string;
  stdout : option string;
  stderr : option string;
  rate_limited : option bool
}.

(** [result.get("rate_limited", False)], as [main] reads it. *)
Definition get_rate_limited (r : StrategyResult) : bool :=
  match rate_limited r with Some b => b | None => false end.

Section RunCommand.
(** [subprocess.run(cmd, capture_output=True, text=True, timeout=30)]
    and [list(self.output_dir.glob(pattern))]; either may raise. *)
Variable subprocess_run : list string -> outcome CompletedProcess.
Variable glob : string -> outcome (list VttFile).

(** The [except Exception as e] branch. *)
Definition run_failed (strategy : string) (e : PyExn) : StrategyResult :=
  {| success := false;
     strategy := strategy;
     file := None;
     text := None;
     length := None;
     error := Some (exn_msg e);
     stdout := None;
     stderr := None;
     rate_limited := None |}.

Definition _run_command (cmd : list string) (strategy video_id : string)
  : StrategyResult :=
  match subprocess_run cmd with
  | inr result =>
      match glob (video_id ++ "_" ++ strategy ++ ".*.vtt") with
      | inr (vtt_file :: _) =>
          match read_text vtt_file with
          | inr content =>
              let clean_text := Subtitles.clean_vtt content in
              match st_size vtt_file with
              | inr _ =>
                  {| success := true;
                     strategy := strategy;
                     file := Some (vtt_path vtt_file);
                     text := Some clean_text;
                     length := Some (len clean_text);
                     error := None;
                     stdout := Some (proc_stdout result);
                     stderr := Some (proc_stderr result);
                     rate_limited := None |}
              | inl e => run_failed strategy e
              end
          | inl e => run_failed strategy e
          end
      | inr [] =>
          {| success := false;
             strategy := strategy;
             file := None;
             text := None;
             length := None;
             error := Some "No VTT file created";
             stdout := Some (proc_stdout result);
             stderr := Some (proc_stderr result);
             rate_limited := Some (contains "429" (proc_stderr result)) |}
      | inl e => run_failed strategy e
      end
  | inl e => run_failed strategy e
  end.
End RunCommand.

(** What [main] does, step by step: it runs a strategy, or it sleeps. *)
Inductive MainEvent : Type :=
| Ran (name : string) (result : StrategyResult)
| Paused (seconds : nat).

(** What [main] observes: the [results] list, every [time.sleep(n)]
    performed, in order, and the two interleaved as they happened. *)
Record MainState : Type := mkMain {
  results : list (string * StrategyResult);
  slept : list nat;
  log : list MainEvent
}.

Definition main_init : MainState :=
  {| results := []; slept := []; log := [] |}.

(** [for name, strategy_func in strategies:
       result = strategy_func(test_url)
       results.append((name, result))
       time.sleep(2)] *)
Fixpoint main_loop (strategies : list (string * (string -> StrategyResult)))
  (test_url : string) (st : MainState) : MainState :=
  match strategies with
  | [] => st
  | (name, strategy_func) :: rest =>
      let result := strategy_func test_url in
      let st1 := {| results := results st ++ [(name, result)];
                    slept := slept st;
                    log := log st ++ [Ran name result] |} in
      let st2 := {| results := results st1;
                    slept := slept st1 ++ [2];
                    log := log st1 ++ [Paused 2] |} in
      main_loop rest test_url st2
  end.

(** [video_url.split("v=")[1] if "v=" in video_url else "unknown"]; the
    second field exists whenever the test succeeds. *)
Definition video_id_of (video_url : string) : string :=
  if contains "v=" video_url then
    match split_str "v=" video_url with
    | _ :: video_id :: _ => video_id
    | _ => EmptyString
    end
  else "unknown".

(** The command lines of the five strategies. *)
Definition strategy_1_cmd (output_dir video_url : string) : list string :=
  ["yt-dlp"; "--write-auto-sub"; "--sub-lang"; "en"; "--sub-format"; "vtt";
   "--skip-download";
   "-o"; output_dir ++ "/" ++ video_id_of video_url ++ "_basic.%(ext)s";
   video_url].

Definition strategy_2_cmd (output_dir video_url : string) : list string :=
  ["yt-dlp"; "--extractor-args"; "youtube:player_client=web";
   "--write-auto-sub"; "--sub-lang"; "en"; "--sub-format"; "vtt";
   "--skip-download";
   "-o"; output_dir ++ "/" ++ video_id_of video_url ++ "_web.%(ext)s";
   video_url].

Definition strategy_3_cmd (output_dir video_url : string) : list string :=
  ["yt-dlp"; "--extractor-args"; "youtube:player_client=android";
   "--write-auto-sub"; "--sub-lang"; "en"; "--sub-format"; "vtt";
   "--skip-download";
   "-o"; output_dir ++ "/" ++ video_id_of video_url ++ "_android.%(ext)s";
   video_url].

Definition strategy_4_cmd (output_dir video_url : string) : list string :=
  ["yt-dlp"; "--extractor-args"; "youtube:player_client=mediaconnect";
   "--write-auto-sub"; "--sub-lang"; "en"; "--sub-format"; "vtt";
   "--skip-download";
   "-o";
   output_dir ++ "/" ++ video_id_of video_url ++ "_mediaconnect.%(ext)s";
   video_url].

Definition strategy_5_cmd (video_url : string) : list string :=
  ["yt-dlp"; "--list-subs"; video_url].

Section Extractor.
(** [self.output_dir], and the world the sub-processes and the glob see. *)
Variable output_dir : string.
Variable subprocess_run : list string -> outcome CompletedProcess.
Variable glob : string -> outcome (list VttFile).

Definition strategy_1_basic (video_url : string) : StrategyResult :=
  let video_id := video_id_of video_url in
  _run_command subprocess_run glob (strategy_1_cmd output_dir video_url)
    "basic" video_id.

Definition strategy_2_web_client (video_url : string) : StrategyResult :=
  let video_id := video_id_of video_url in
  _run_command subprocess_run glob (strategy_2_cmd output_dir video_url)
    "web_client" video_id.

Definition strategy_3_android (video_url : string) : StrategyResult :=
  let video_id := video_id_of video_url in
  _run_command subprocess_run glob (strategy_3_cmd output_dir video_url)
    "android" video_id.

Definition strategy_4_mediaconnect (video_url : string) : StrategyResult :=
  let video_id := video_id_of video_url in
  _run_command subprocess_run glob (strategy_4_cmd output_dir video_url)
    "mediaconnect" video_id.

Definition strategy_5_list_subs (video_url : string) : StrategyResult :=
  match subprocess_run (strategy_5_cmd video_url) with
  | inr result =>
      {| success := contains "Available subtitles" (proc_stdout result);
         strategy := "list_subs";
         file := None;
         text := None;
         length := None;
         error := None;
         stdout := Some (proc_stdout result);
         stderr := Some (proc_stderr result);
         rate_limited := None |}
  | inl e =>
      {| success := false;
         strategy := "list_subs";
         file := None;
         text := None;
         length := None;
         error := Some (exn_msg e);
         stdout := None;
         stderr := None;
         rate_limited := None |}
  end.

(** The [strategies] list of [main]. *)
Definition strategies : list (string * (string -> StrategyResult)) :=
  [("Basic", strategy_1_basic);
   ("Web Client", strategy_2_web_client);
   ("Android", strategy_3_android);
   ("MediaConnect", strategy_4_mediaconnect);
   ("List Subs", strategy_5_list_subs)].

Definition test_url : string :=
  "https://www.youtube.com/watch?v=dQw4w9WgXcQ".

(** The loop of [main], from an empty [results] list. *)
Definition main : MainState := main_loop strategies test_url main_init.
End Extractor.

(** [sum(1 for _, r in results if r["success"])] and
    [sum(1 for _, r in results if r.get("rate_limited", False))] *)
Definition success_count (rs : list (string * StrategyResult)) : nat :=
  List.length (filter (fun nr => success (snd nr)) rs).

Definition rate_limited_count (rs : list (string * StrategyResult)) : nat :=
  List.length (filter (fun nr => get_rate_limited (snd nr)) rs).

(** The argument that follows [-o] in a command line. *)
Fixpoint output_template (cmd : list string) : option string :=
  match cmd with
  | [] => None
  | arg :: rest =>
      if String.eqb arg "-o" then hd_error rest else output_template rest
  end.

End YtDlp.

(** ** The transcript scripts: [test-youtube-fix.py],
       [test-youtube-transcript-debug.py], [test-youtube-real.py] *)

Module Transcripts.
Import PyStr.

(** What a script does, step by step. *)
Inductive Event : Type :=
| Slept (seconds : nat)
| Called (who : string)
| Wrote (name content : string).

(** What a script does to the outside: the files it has written, the
    sleeps it performs and the transcript calls it makes, each in order,
    and all of them interleaved as they happened. *)
Record World : Type := mkWorld {
  files : list (string * string);
  slept : list nat;
  invoked : list string;
  events : list Event
}.

Definition world_init : World :=
  {| files := []; slept := []; invoked := []; events := [] |}.

Definition sleep (n : nat) (w : World) : World :=
  {| files := files w; slept := slept w ++ [n]; invoked := invoked w;
     events := events w ++ [Slept n] |}.

Definition write_file (name content : string) (w : World) : World :=
  {| files := files w ++ [(name, content)];
     slept := slept w; invoked := invoked w;
     events := events w ++ [Wrote name content] |}.

Definition call (who : string) (w : World) : World :=
  {| files := files w; slept := slept w; invoked := invoked w ++ [who];
     events := events w ++ [Called who] |}.

(** A transcript track of [list_transcripts]; [fetch] is what
    [transcript.fetch()] does: it raises, or returns the [text] of each
    entry. *)
Record Transcript : Type := mkTranscript {
  language : string;
  language_code : string;
  is_generated : bool;
  fetch : outcome (list string)
}.

(** [len(full_text) > 500] *)
Definition long_enough (full_text : string) : bool :=
  (500 <? len full_text)%nat.

Section Scripts.
(** [with open(filename, 'w', encoding='utf-8') as f: f.write(text)]: it
    raises, or the file is written. *)
Variable write_text : string -> string -> outcome unit.

(** The loop of Strategy 2 of [test-youtube-fix.py].  Fetching, the
    length check and the saving are all inside the [try]: when any of
    them raises, the loop goes on with the next track. *)
Fixpoint strategy2_loop (transcript_list : list Transcript) (w : World)
  : World :=
  match transcript_list with
  | [] => w
  | transcript :: rest =>
      let w1 := sleep 1 w in
      let w2 := call (language_code transcript) w1 in
      match fetch transcript with
      | inr data =>
          let full_text := join " " data in
          if long_enough full_text then
            let filename :=
              "transcript-" ++ language_code transcript ++ ".txt" in
            match write_text filename full_text with
            | inr _ => write_file filename full_text w2
            | inl _ => strategy2_loop rest w2
            end
          else strategy2_loop rest w2
      | inl _ => strategy2_loop rest w2
      end
  end.

(** The whole of [test-youtube-fix.py]: Strategy 1 ([get_transcript]
    formatted as text and saved), then Strategy 2. *)
Definition youtube_fix (get_transcript : outcome string)
  (list_transcripts : outcome (list Transcript)) (w : World) : World :=
  let w1 := sleep 2 w in
  let w2 := call "get_transcript" w1 in
  let w3 := match get_transcript with
            | inr text =>
                match write_text "transcript-fixed.txt" text with
                | inr _ => write_file "transcript-fixed.txt" text w2
                | inl _ => w2
                end
            | inl _ => w2
            end in
  let w4 := sleep 2 w3 in
  let w5 := call "list_transcripts" w4 in
  match list_transcripts with
  | inr transcript_list => strategy2_loop transcript_list w5
  | inl _ => w5
  end.

(** The [strategies] loop of [test-youtube-transcript-debug.py]: each
    strategy is its name and what calling it does.  The saving is inside
    the [try] as well. *)
Fixpoint strategies_loop (strategies : list (string * outcome (list string)))
  (w : World) : World :=
  match strategies with
  | [] => w
  | (strategy_name, strategy_func) :: rest =>
      let w1 := call strategy_name w in
      match strategy_func with
      | inr transcript =>
          let full_text := join " " transcript in
          let filename :=
            "transcript-" ++ replace_char " " "-" strategy_name ++ ".txt" in
          match write_text filename full_text with
          | inr _ => write_file filename full_text w1
          | inl _ => strategies_loop rest w1
          end
      | inl _ => strategies_loop rest w1
      end
  end.

(** An entry of a fetched transcript, as [test-youtube-real.py] reads it:
    a dict, with or without a [text], or anything else with its [str]. *)
Inductive Entry : Type :=
| EntryDict (text : option string)
| EntryOther (str_of : string).

(** [entry.get('text', '') if isinstance(entry, dict) else str(entry)] *)
Definition entry_text (entry : Entry) : string :=
  match entry with
  | EntryDict (Some t) => t
  | EntryDict None => EmptyString
  | EntryOther s => s
  end.

(** The whole of [test-youtube-real.py]: one pause, the listing, the
    fetch (whose result is [None] here when it is not iterable), and the
    saving of the joined text. *)
Definition youtube_real (list_transcripts : outcome (list Transcript))
  (fetch_en : outcome (option (list Entry))) (w : World) : World :=
  let w1 := sleep 3 w in
  let w2 := call "list" w1 in
  match list_transcripts with
  | inl _ => w2
  | inr _ =>
      let w3 := call "fetch" w2 in
      match fetch_en with
      | inr (Some entries) =>
          let full_text := join " " (map entry_text entries) in
          match write_text "youtube-real-test.txt" full_text with
          | inr _ => write_file "youtube-real-test.txt" full_text w3
          | inl _ => w3
          end
      | inr None => w3
      | inl _ => w3
      end
  end.
End Scripts.

(** [full_text[:n]] *)
Definition slice_to (n : nat) (s : string) : string := String.substring 0 n s.

(** The validation block of [test-youtube-real.py]:
    [len(full_text) > 1000 and '[Sobre]' not in full_text[:1000]]. *)
Definition likely_valid (full_text : string) : bool :=
  (1000 <? len full_text)%nat
  && negb (contains "[Sobre]" (slice_to 1000 full_text)).

(** The line before it in the same block prints
    ['[Sobre]' in full_text], on the whole text. *)
Definition has_footer_pattern (full_text : string) : bool :=
  contains "[Sobre]" full_text.

End Transcripts.

(** ** The REST service: [apps/markitdown/server.py] *)

Module Server.
Import PyStr.

(** JSON values, which are also the Python values [request.get_json()]
    returns: a [JObj] is a [dict] in insertion order with distinct keys.
    Numbers are integers here; a float is truthy unless it is zero, like
    an [int]. *)
#[warnings="-register-all"] Inductive json : Type :=
| JNull
| JBool (b : bool)
| JNum (n : Z)
| JStr (s : string)
| JArr (items : list json)
| JObj (fields : list (string * json)).

(** A Flask view returns [(jsonify(body), status)]. *)
Definition Response : Type := (json * nat)%type.

Definition status_code (r : Response) : nat := snd r.
Definition body (r : Response) : json := fst r.

Fixpoint assoc {A : Type} (k : string) (l : list (string * A)) : option A :=
  match l with
  | [] => None
  | (k', v) :: rest => if String.eqb k k' then Some v else assoc k rest
  end.

(** [body.get(k)] on the response body *)
Definition field (k : string) (j : json) : option json :=
  match j with
  | JObj fields => assoc k fields
  | _ => None
  end.

(** *** Handlers: a trace of converter calls, and exceptions *)

Section HandlerMonad.
Context {Call : Type}.

(** A computation that may raise and that records the arguments of
    every call to the converter. *)
Definition M (A : Type) : Type :=
  list Call -> outcome A * list Call.

Definition ret {A} (a : A) : M A := fun tr => (inr a, tr).

Definition bind {A B} (m : M A) (f : A -> M B) : M B :=
  fun tr =>
    match m tr with
    | (inr a, tr') => f a tr'
    | (inl e, tr') => (inl e, tr')
    end.

(** An operation of the interpreter or of Flask, which may raise. *)
Definition lift {A} (x : outcome A) : M A := fun tr => (x, tr).

(** A call [converter(arg)]. *)
Definition invoke {A} (converter : Call -> outcome A) (arg : Call) : M A :=
  fun tr => (converter arg, (tr ++ [arg])%list).

(** [try: m except Exception as e: handler(e)]; the handlers of this
    service do not raise themselves. *)
Definition try_except {A} (m : M A) (handler : PyExn -> A) : list Call -> A * list Call :=
  fun tr =>
    match m tr with
    | (inr a, tr') => (a, tr')
    | (inl e, tr') => (handler e, tr')
    end.
End HandlerMonad.

Notation "x <- m ;; k" := (bind m (fun x => k))
  (at level 61, m at next level, right associativity).

(** The object a MarkItDown conversion returns, as the handlers inspect
    it: [text_content] is [None] when the attribute is missing, [title]
    is [None] when the attribute is missing or is [None]. *)
Record ConversionResult : Type := mkConv {
  text_content : option string;
  title : option string;
  str_of : string
}.

(** [result.text_content if hasattr(result, 'text_content') else str(result)] *)
Definition markdown_of (result : ConversionResult) : string :=
  match text_content result with
  | Some t => t
  | None => str_of result
  end.

(** [if hasattr(result, 'title') and result.title: metadata['title'] = ...] *)
Definition with_title (result : ConversionResult)
  (metadata : list (string * json)) : list (string * json) :=
  match title result with
  | Some t => if is_empty t then metadata else metadata ++ [("title", JStr t)]
  | None => metadata
  end.

Definition int_of_len (n : nat) : json := JNum (Z.of_nat n).

(** **** [POST /convert] *)

(** A [FileStorage] of [request.files]. *)
Record FileStorage : Type := mkFile {
  filename : option string;
  read : list Byte.byte
}.

Record ConvertRequest : Type := mkConvertReq {
  req_files : list (string * FileStorage);
  req_data : list Byte.byte;
  req_headers : list (string * string)
}.

Definition lower_char (c : ascii) : ascii :=
  let n := Ascii.nat_of_ascii c in
  if ((65 <=? n) && (n <=? 90))%nat then Ascii.ascii_of_nat (n + 32) else c.

Fixpoint lower (s : string) : string :=
  match s with
  | EmptyString => EmptyString
  | String c s' => String (lower_char c) (lower s')
  end.

(** [request.headers.get(name, default)]: header names compare without
    regard to case. *)
Fixpoint headers_get (name default : string) (hs : list (string * string))
  : string :=
  match hs with
  | [] => default
  | (k, v) :: rest =>
      if String.eqb (lower k) (lower name) then v
      else headers_get name default rest
  end.

(** [file.filename or 'document'] *)
Definition filename_or_document (f : FileStorage) : string :=
  match filename f with
  | Some n => if is_empty n then "document" else n
  | None => "document"
  end.

(** The [if 'file' in request.files: ... elif request.data: ... else:]
    chain: the name and the bytes to convert, or nothing. *)
Definition uploaded (request : ConvertRequest)
  : option (string * list Byte.byte) :=
  match assoc "file" (req_files request) with
  | Some file => Some (filename_or_document file, read file)
  | None =>
      match req_data request with
      | _ :: _ =>
          Some (headers_get "X-Filename" "document" (req_headers request),
                req_data request)
      | [] => None
      end
  end.

Definition no_file_response : Response :=
  (JObj [("error", JStr "No file provided");
         ("message", JStr "Send file via multipart/form-data or raw body")],
   400).

Definition conversion_failed (e : PyExn) : Response :=
  (JObj [("error", JStr "Conversion failed");
         ("message", JStr (exn_msg e));
         ("type", JStr (exn_type e))],
   500).

Definition convert_to_markdown
  (convert_stream : list Byte.byte -> outcome ConversionResult)
  (request : ConvertRequest) : Response * list (list Byte.byte) :=
  try_except
    (match uploaded request with
     | None => ret no_file_response
     | Some (filename, file_content) =>
         result <- invoke convert_stream file_content ;;
         let markdown_text := markdown_of result in
         let metadata :=
           [("filename", JStr filename);
            ("size_bytes", int_of_len (List.length file_content));
            ("markdown_length", int_of_len (len markdown_text))] in
         let metadata := with_title result metadata in
         ret (JObj [("markdown", JStr markdown_text);
                    ("metadata", JObj metadata)],
              200)
     end)
    conversion_failed
    [].

(** **** [POST /convert/url] *)

(** [request.get_json()] is Flask's: it raises, or returns the parsed
    body. *)
Record UrlRequest : Type := mkUrlReq { get_json : outcome json }.

(** [bool(data)] *)
Definition truthy (data : json) : bool :=
  match data with
  | JNull => false
  | JBool b => b
  | JNum n => negb (Z.eqb n 0)
  | JStr s => negb (is_empty s)
  | JArr items => match items with [] => false | _ => true end
  | JObj fields => match fields with [] => false | _ => true end
  end.

Definition type_error (msg : string) : PyExn :=
  {| exn_type := "TypeError"; exn_msg := msg |}.

Definition is_str (s : string) (j : json) : bool :=
  match j with JStr t => String.eqb s t | _ => false end.

(** [key in data]: key lookup on a dict, element comparison on a list,
    substring search on a string; the other values are not containers. *)
Definition py_in (key : string) (data : json) : outcome bool :=
  match data with
  | JObj fields =>
      inr (match assoc key fields with Some _ => true | None => false end)
  | JArr items => inr (existsb (is_str key) items)
  | JStr s => inr (contains key s)
  | JNum _ => inl (type_error "argument of type 'int' is not iterable")
  | JBool _ => inl (type_error "argument of type 'bool' is not iterable")
  | JNull => inl (type_error "argument of type 'NoneType' is not iterable")
  end.

(** [data[key]] for a string [key] *)
Definition py_getitem (data : json) (key : string) : outcome json :=
  match data with
  | JObj fields =>
      match assoc key fields with
      | Some v => inr v
      | None => inl {| exn_type := "KeyError"; exn_msg := "'" ++ key ++ "'" |}
      end
  | JArr _ =>
      inl (type_error "list indices must be integers or slices, not str")
  | JStr _ => inl (type_error "string indices must be integers, not 'str'")
  | JNum _ => inl (type_error "'int' object is not subscriptable")
  | JBool _ => inl (type_error "'bool' object is not subscriptable")
  | JNull => inl (type_error "'NoneType' object is not subscriptable")
  end.

Definition dquote : string := String (Ascii.ascii_of_nat 34) EmptyString.

Definition no_url_response : Response :=
  (JObj [("error", JStr "No URL provided");
         ("message", JStr ("Send JSON with " ++ dquote ++ "url" ++ dquote
                           ++ " field"))],
   400).

Definition url_conversion_failed (e : PyExn) : Response :=
  (JObj [("error", JStr "URL conversion failed");
         ("message", JStr (exn_msg e));
         ("type", JStr (exn_type e))],
   500).

Definition convert_url_to_markdown
  (convert : json -> outcome ConversionResult)
  (request : UrlRequest) : Response * list json :=
  try_except
    (data <- lift (get_json request) ;;
     missing <- (if negb (truthy data) then ret true
                 else present <- lift (py_in "url" data) ;;
                      ret (negb present)) ;;
     if missing : bool then ret no_url_response
     else
       url <- lift (py_getitem data "url") ;;
       result <- invoke convert url ;;
       let markdown_text := markdown_of result in
       let metadata :=
         [("url", url);
          ("markdown_length", int_of_len (len markdown_text))] in
       let metadata := with_title result metadata in
       ret (JObj [("markdown", JStr markdown_text);
                  ("metadata", JObj metadata)],
            200))
    url_conversion_failed
    [].


(** **** CORS configuration *)

(** What [CORS(app)] or [CORS(app, origins=origins)] is given. *)
Inductive Cors : Type :=
| AnyOrigin
| Origins (origins : list string).

(** [allowed_origins = os.getenv('ALLOWED_ORIGINS', '*')], then the
    [if allowed_origins == '*'] that configures CORS. *)
Definition configure_cors (env_allowed_origins : option string) : Cors :=
  let allowed_origins :=
    match env_allowed_origins with
    | Some v => v
    | None => "*"
    end in
  if String.eqb allowed_origins "*" then AnyOrigin
  else Origins (map strip (split "," allowed_origins)).
End Server.

(** ** The first yt-dlp extractor: [test_ytdlp_poc.py] *)

Module Poc.
Import PyStr Server.

(** The dictionary returned by an extractor; a key that the branch does
    not set is [None]. *)
Record PocResult : Type := mkPoc {
  success : bool;
  format : string;
  file : option string;
  size : option nat;
  text : option string;
  length : option nat;
  error : option string;
  stdout : option string;
  stderr : option string
}.

Definition failure (format : string) (e : PyExn) : PocResult :=
  {| success := false; format := format; file := None; size := None;
     text := None; length := None; error := Some (exn_msg e);
     stdout := None; stderr := None |}.

Definition not_created (format message : string)
  (result : YtDlp.CompletedProcess) : PocResult :=
  {| success := false; format := format; file := None; size := None;
     text := None; length := None; error := Some message;
     stdout := Some (YtDlp.proc_stdout result);
     stderr := Some (YtDlp.proc_stderr result) |}.

(** [type(v).__name__] *)
Definition type_name (v : json) : string :=
  match v with
  | JNull => "NoneType"
  | JBool _ => "bool"
  | JNum _ => "int"
  | JStr _ => "str"
  | JArr _ => "list"
  | JObj _ => "dict"
  end.

(** [for x in v]: the items of a list, the keys of a dict, the
    characters of a string; the other values are not iterable. *)
Definition py_iter (v : json) : outcome (list json) :=
  match v with
  | JArr items => inr items
  | JObj fields => inr (map (fun kv => JStr (fst kv)) fields)
  | JStr s =>
      inr (map (fun c => JStr (String c EmptyString))
             (list_ascii_of_string s))
  | _ => inl (type_error ("'" ++ type_name v ++ "' object is not iterable"))
  end.

Definition decimal (n : nat) : string :=
  DecimalString.NilZero.string_of_uint (Nat.to_uint n).

(** The check [' '.join] makes on its items, from item number [i] on. *)
Fixpoint str_items (i : nat) (parts : list json) : outcome (list string) :=
  match parts with
  | [] => inr []
  | JStr s :: rest =>
      match str_items (S i) rest with
      | inr ss => inr (s :: ss)
      | inl e => inl e
      end
  | v :: _ =>
      inl (type_error ("sequence item " ++ decimal i
                       ++ ": expected str instance, " ++ type_name v
                       ++ " found"))
  end.

(** [for seg in segs: if "utf8" in seg: text_parts.append(seg["utf8"])] *)
Fixpoint collect_segs (segs : list json) : outcome (list json) :=
  match segs with
  | [] => inr []
  | seg :: rest =>
      match py_in "utf8" seg with
      | inl e => inl e
      | inr true =>
          match py_getitem seg "utf8" with
          | inl e => inl e
          | inr part =>
              match collect_segs rest with
              | inl e => inl e
              | inr parts => inr (part :: parts)
              end
          end
      | inr false => collect_segs rest
      end
  end.

(** [for event in events: if "segs" in event: for seg in event["segs"]: ...] *)
Fixpoint collect_events (events : list json) : outcome (list json) :=
  match events with
  | [] => inr []
  | event :: rest =>
      match py_in "segs" event with
      | inl e => inl e
      | inr true =>
          match py_getitem event "segs" with
          | inl e => inl e
          | inr segs_value =>
              match py_iter segs_value with
              | inl e => inl e
              | inr segs =>
                  match collect_segs segs with
                  | inl e => inl e
                  | inr parts =>
                      match collect_events rest with
                      | inl e => inl e
                      | inr more => inr (parts ++ more)%list
                      end
                  end
              end
          end
      | inr false => collect_events rest
      end
  end.

(** The extraction of the text from the parsed json3 document. *)
Definition json3_text (data : json) : outcome string :=
  match py_in "events" data with
  | inl e => inl e
  | inr true =>
      match py_getitem data "events" with
      | inl e => inl e
      | inr events_value =>
          match py_iter events_value with
          | inl e => inl e
          | inr events =>
              match collect_events events with
              | inl e => inl e
              | inr text_parts =>
                  match str_items 0 text_parts with
                  | inl e => inl e
                  | inr strs => inr (join " " strs)
                  end
              end
          end
      end
  | inr false => inr EmptyString
  end.

Section Extractor.
(** [str(self.output_dir / name)], the sub-process, and the file system
    as [Path.exists], [Path.read_text] and [Path.stat().st_size] see it;
    [json.loads]. *)
Variable output_path : string -> string.
Variable subprocess_run : list string -> outcome YtDlp.CompletedProcess.
Variable file_exists : string -> bool.
Variable read_text : string -> outcome string.
Variable st_size : string -> nat.
Variable json_loads : string -> outcome json.

Definition poc_cmd (sub_format output_file video_url : string)
  : list string :=
  ["yt-dlp"; "--write-auto-sub"; "--sub-lang"; "en";
   "--sub-format"; sub_format; "--skip-download";
   "--output"; output_file; video_url].

Definition found (format path clean_text : string)
  (result : YtDlp.CompletedProcess) : PocResult :=
  {| success := true; format := format; file := Some path;
     size := Some (st_size path); text := Some clean_text;
     length := Some (len clean_text); error := None;
     stdout := Some (YtDlp.proc_stdout result);
     stderr := Some (YtDlp.proc_stderr result) |}.


Definition extract_transcript_json (video_url : string) : PocResult :=
  let video_id := YtDlp.video_id_of video_url in
  let output_file := output_path (video_id ++ "_json") in
  match subprocess_run (poc_cmd "json3" output_file video_url) with
  | inl e => failure "json" e
  | inr result =>
      let json_file := output_file ++ ".en.json3" in
      if file_exists json_file then
        match read_text json_file with
        | inl e => failure "json" e
        | inr content =>
            match json_loads content with
            | inl e => failure "json" e
            | inr data =>
                match json3_text data with
                | inl e => failure "json" e
                | inr clean_text => found "json" json_file clean_text result
                end
            end
        end
      else not_created "json" "JSON file not created" result
  end.

End Extractor.

End Poc.

(** ** Specification vocabulary *)

Module Spec.
Import PyStr.

(** [sub] occurs somewhere in [s]. *)
Definition Occurs (sub s : string) : Prop :=
  exists a b, s = a ++ sub ++ b.

Definition StartsWith (p s : string) : Prop :=
  exists t, s = p ++ t.

(** A cue index: digits only, possibly surrounded by white space. *)
Definition IndexLine (l : string) : Prop :=
  exists a d b,
    l = a ++ d ++ b
    /\ all_chars isspace a = true /\ all_chars isspace b = true
    /\ d <> "" /\ all_chars isdigit_char d = true.

(** A cue timing: a line with the arrow. *)
Definition TimingLine (l : string) : Prop := Occurs "-->" l.

(** The lines of a text: the fields between its line feeds. *)
Definition LinesOf (content : string) (lines : list string) : Prop :=
  lines <> []
  /\ join (String LF "") lines = content
  /\ Forall (fun l => ~ Occurs (String LF "") l) lines.

(** [kept] is [lines] with exactly the lines satisfying [noise] taken
    out, order and repetitions preserved. *)
Inductive Stripped (noise : string -> Prop)
  : list string -> list string -> Prop :=
| Stripped_nil : Stripped noise [] []
| Stripped_drop l ls ks :
    noise l -> Stripped noise ls ks -> Stripped noise (l :: ls) ks
| Stripped_keep l ls ks :
    ~ noise l -> Stripped noise ls ks -> Stripped noise (l :: ls) (l :: ks).

Definition VttNoise (l : string) : Prop :=
  l = "" \/ StartsWith "WEBVTT" l \/ TimingLine l \/ IndexLine l.

Definition SrtNoise (l : string) : Prop :=
  l = "" \/ TimingLine l \/ IndexLine l.

(** A track of Strategy 2 whose fetch returns and whose text passes the
    length check. *)
Definition accepted_track (t : Transcripts.Transcript) : bool :=
  match Transcripts.fetch t with
  | inr data => Transcripts.long_enough (join " " data)
  | inl _ => false
  end.

(** The file Strategy 2 writes for a track, and the file the debug script
    writes for a strategy. *)
Definition track_file (language_code : string) : string :=
  "transcript-" ++ language_code ++ ".txt".

Definition debug_file (strategy_name : string) : string :=
  "transcript-" ++ replace_char " " "-" strategy_name ++ ".txt".

(** A [POST /convert] request carries a file: a multipart field named
    [file], or a raw body that is not empty. *)
Definition supplies_file (request : Server.ConvertRequest) : Prop :=
  (exists f, Server.assoc "file" (Server.req_files request) = Some f)
  \/ Server.req_data request <> [].

(** The bytes such a request uploads: those of the multipart field when
    there is one, the raw body otherwise. *)
Definition uploaded_bytes (request : Server.ConvertRequest)
  : list Byte.byte :=
  match Server.assoc "file" (Server.req_files request) with
  | Some f => Server.read f
  | None => Server.req_data request
  end.

(** The title a conversion reports, if any: a missing, [None] or empty
    title is none. *)
Definition reported_title (result : Server.ConversionResult)
  : option string :=
  match Server.title result with
  | Some t => if is_empty t then None else Some t
  | None => None
  end.

(** The glob pattern of [_run_command]. *)
Definition artifact_pattern (strategy video_id : string) : string :=
  video_id ++ "_" ++ strategy ++ ".*.vtt".


(** [sum(len(x) for x in xs)] *)
Fixpoint total_len (xs : list string) : nat :=
  match xs with
  | [] => 0
  | x :: rest => len x + total_len rest
  end.

(** No character of [s] is [c]. *)
Definition free_of (c : ascii) (s : string) : bool :=
  all_chars (fun d => negb (Ascii.eqb d c)) s.


(** The json3 document as yt-dlp writes it: events are objects that may
    have a list [segs] of objects that may have a string [utf8]. *)
Definition seg_ok (seg : Server.json) : Prop :=
  exists fields,
    seg = Server.JObj fields
    /\ (Server.assoc "utf8" fields = None
        \/ exists s, Server.assoc "utf8" fields = Some (Server.JStr s)).

Definition event_ok (event : Server.json) : Prop :=
  exists fields,
    event = Server.JObj fields
    /\ (Server.assoc "segs" fields = None
        \/ exists segs,
             Server.assoc "segs" fields = Some (Server.JArr segs)
             /\ Forall seg_ok segs).

(** The texts of a segment and of an event, in order. *)
Definition seg_text (seg : Server.json) : list string :=
  match seg with
  | Server.JObj fields =>
      match Server.assoc "utf8" fields with
      | Some (Server.JStr s) => [s]
      | _ => []
      end
  | _ => []
  end.

Definition event_texts (event : Server.json) : list string :=
  match event with
  | Server.JObj fields =>
      match Server.assoc "segs" fields with
      | Some (Server.JArr segs) => flat_map seg_text segs
      | _ => []
      end
  | _ => []
  end.


(** The body of a 200 answer: the markdown and the metadata built for
    it, [origin] being the entries that name where the text came from. *)
Definition markdown_body (origin : list (string * Server.json))
  (result : Server.ConversionResult) : Server.json :=
  Server.JObj
    [("markdown", Server.JStr (Server.markdown_of result));
     ("metadata",
      Server.JObj
        (Server.with_title result
           (origin
            ++ [("markdown_length",
                 Server.int_of_len (len (Server.markdown_of result)))])%list))].

(** A 200 answer is well formed: a markdown string and, in the metadata,
    its length. *)
Definition coherent_success (j : Server.json) : Prop :=
  exists md metadata,
    Server.field "markdown" j = Some (Server.JStr md)
    /\ Server.field "metadata" j = Some (Server.JObj metadata)
    /\ Server.assoc "markdown_length" metadata
       = Some (Server.JNum (Z.of_nat (len md)))
    /\ Server.field "error" j = None.

(** An error answer: an error and a message, and no markdown. *)
Definition coherent_error (j : Server.json) : Prop :=
  (exists err msg,
      Server.field "error" j = Some (Server.JStr err)
      /\ Server.field "message" j = Some (Server.JStr msg))
  /\ Server.field "markdown" j = None.


(** What [main] does for its strategies: each is run and then followed by
    a pause of two seconds. *)
Definition main_steps (test_url : string)
  (strategies : list (string * (string -> YtDlp.StrategyResult)))
  : list YtDlp.MainEvent :=
  flat_map (fun s => [YtDlp.Ran (fst s) (snd s test_url); YtDlp.Paused 2])
    strategies.

(** A track of Strategy 2 that is fetched, passes the length check and
    whose text is saved: the only way to the [break]. *)
Definition saved_track (write_text : string -> string -> outcome unit)
  (t : Transcripts.Transcript) : bool :=
  match Transcripts.fetch t with
  | inr data =>
      Transcripts.long_enough (join " " data)
      && match write_text (track_file (Transcripts.language_code t))
                 (join " " data) with
         | inr _ => true
         | inl _ => false
         end
  | inl _ => false
  end.

(** What Strategy 2 does for one track: a pause of one second, then the
    fetch, then the saving if the track gets that far. *)
Definition track_steps (write_text : string -> string -> outcome unit)
  (t : Transcripts.Transcript) : list Transcripts.Event :=
  [Transcripts.Slept 1; Transcripts.Called (Transcripts.language_code t)]
  ++ match Transcripts.fetch t with
     | inr data =>
         if saved_track write_text t
         then [Transcripts.Wrote (track_file (Transcripts.language_code t))
                 (join " " data)]
         else []
     | inl _ => []
     end.

(** What Strategy 1 of [test-youtube-fix.py] leaves behind. *)
Definition fixed_steps (write_text : string -> string -> outcome unit)
  (get_transcript : outcome string) : list Transcripts.Event :=
  match get_transcript with
  | inr text =>
      match write_text "transcript-fixed.txt" text with
      | inr _ => [Transcripts.Wrote "transcript-fixed.txt" text]
      | inl _ => []
      end
  | inl _ => []
  end.

(** A strategy of the debug script whose call returns and whose text is
    saved. *)
Definition saved_strategy (write_text : string -> string -> outcome unit)
  (s : string * outcome (list string)) : bool :=
  match snd s with
  | inr transcript =>
      match write_text (debug_file (fst s)) (join " " transcript) with
      | inr _ => true
      | inl _ => false
      end
  | inl _ => false
  end.

End Spec.

(** ** Concrete inputs *)

Module Fixtures.
Import PyStr.

Definition rate_limited_run (_ : list string) : outcome YtDlp.CompletedProcess :=
  inr (YtDlp.mkProc 1 "" "ERROR: HTTP Error 429: Too Many Requests").

Definition no_artifact (_ : string) : outcome (list YtDlp.VttFile) :=
  inr [].

Definition stale_artifact (_ : string) : outcome (list YtDlp.VttFile) :=
  inr [YtDlp.mkVtt "/tmp/ytdlp_advanced/dQw4w9WgXcQ_android.en.vtt"
         (inr "WEBVTT") (inr 6)].

(** A transcript text of 300 characters. *)
Definition medium_text : string := repeat_char "a" 300.

(** A raw upload of three bytes. *)
Definition raw_upload : Server.ConvertRequest :=
  Server.mkConvertReq [] [Byte.x25; Byte.x50; Byte.x44]
    [("x-filename", "report.pdf")].

(** [client.post("/convert")]: no file, no body. *)
Definition empty_post : Server.ConvertRequest :=
  Server.mkConvertReq [] [] [].

Definition converts_to_hello (_ : list Byte.byte)
  : outcome Server.ConversionResult :=
  inr (Server.mkConv (Some "# Hello") (Some "Hello") "<result>").

Definition conversion_raises (_ : list Byte.byte)
  : outcome Server.ConversionResult :=
  inl (mkExn "UnsupportedFormatException" "Could not convert stream").

(** A body that is valid JSON but not an object: the number 5. *)
Definition number_body : Server.UrlRequest :=
  Server.mkUrlReq (inr (Server.JNum 5)).

(** A body that Flask cannot parse. *)
Definition unparseable_body : Server.UrlRequest :=
  Server.mkUrlReq
    (inl (mkExn "BadRequest"
            "400 Bad Request: Failed to decode JSON object")).

(** A small WebVTT artifact and a small SubRip artifact. *)
Definition sample_vtt : string :=
  join (String LF "")
    ["WEBVTT"; ""; "1"; "00:00:00.000 --> 00:00:02.000"; "Never gonna";
     ""; " 2 "; "00:00:02.000 --> 00:00:04.000"; "give you up"; ""].

Definition sample_srt : string :=
  join (String LF "")
    ["1"; "00:00:00,000 --> 00:00:02,000"; "Never gonna"; "";
     "2"; "00:00:02,000 --> 00:00:04,000"; "give you up"].

(** The monkeypatched converters of [tests/test_routes.py]. *)
Definition fake_convert (url : Server.json)
  : outcome Server.ConversionResult :=
  inr (Server.mkConv (Some "Converted markdown for https://example.com")
         (Some "Example") "<namespace>").

Definition fake_convert_fail (url : Server.json)
  : outcome Server.ConversionResult :=
  inl (mkExn "RuntimeError" "conversion failed").

Definition example_url_request : Server.UrlRequest :=
  Server.mkUrlReq
    (inr (Server.JObj [("url", Server.JStr "https://example.com")])).

(** A text of 1000 characters without the footer marker. *)
Definition long_text : string := repeat_char "a" 1000.

(** A watch URL with a further query parameter, and a short link. *)
Definition timed_url_prefix : string := "https://www.youtube.com/watch?".
Definition timed_url_rest : string := "dQw4w9WgXcQ&t=42s".
Definition short_url : string := "https://youtu.be/dQw4w9WgXcQ".

(** A run of yt-dlp that leaves a json3 artifact without events. *)
Definition quiet_run (_ : list string) : outcome YtDlp.CompletedProcess :=
  inr (YtDlp.mkProc 0 "" "").

Definition parses_to_empty_object (_ : string) : outcome Server.json :=
  inr (Server.JObj [("wireMagic", Server.JStr "pb3")]).

(** The events of a small json3 document. *)
Definition sample_events : list Server.json :=
  [Server.JObj [("tStartMs", Server.JNum 0)];
   Server.JObj
     [("segs",
       Server.JArr [Server.JObj [("utf8", Server.JStr "Never")];
                    Server.JObj [("tOffsetMs", Server.JNum 5)];
                    Server.JObj [("utf8", Server.JStr "gonna")]])]].

(** A disk on which every file can be written, and one on which a file
    name with a slash cannot: there is no such directory. *)
Definition writes_all (_ _ : string) : outcome unit := inr tt.

Definition no_subdirectory (name _ : string) : outcome unit :=
  if contains "/" name
  then inl (mkExn "FileNotFoundError"
              "[Errno 2] No such file or directory")
  else inr tt.

(** Two tracks with a text of 600 characters each; the language code of
    the first has a slash. *)
Definition slash_track : Transcripts.Transcript :=
  Transcripts.mkTranscript "A or B" "a/b" true
    (inr [repeat_char "a" 600]).

Definition english_track : Transcripts.Transcript :=
  Transcripts.mkTranscript "English" "en" false
    (inr [repeat_char "e" 600]).

End Fixtures.

(** * Properties *)

(** ** Strings *)

Section StringFacts.
Import PyStr Spec.

Lemma sapp_assoc (a b c : string) : (a ++ b) ++ c = a ++ (b ++ c).
Proof. induction a as [|x a IH]; simpl; [reflexivity | now rewrite IH]. Qed.

Lemma sapp_nil_r (a : string) : a ++ "" = a.
Proof. induction a as [|x a IH]; simpl; [reflexivity | now rewrite IH]. Qed.

Lemma is_empty_true (s : string) : is_empty s = true <-> s = "".
Proof. destruct s; simpl; split; intro H; try reflexivity; discriminate. Qed.

Lemma prefix_spec (p s : string) :
  String.prefix p s = true <-> StartsWith p s.
Proof.
  unfold StartsWith. revert s.
  induction p as [|c p IH]; intros [|d s]; simpl.
  - split; [intros _; now exists "" | reflexivity].
  - split; [intros _; now exists (String d s) | reflexivity].
  - split; [discriminate | intros [t Ht]; discriminate].
  - destruct (ascii_dec c d) as [->|Hne].
    + rewrite IH. split; intros [t Ht]; exists t.
      * now rewrite Ht.
      * now inversion Ht.
    + split; [discriminate|].
      intros [t Ht]. inversion Ht. congruence.
Qed.

Lemma contains_nil (sub : string) :
  contains sub "" = if String.prefix sub "" then true else false.
Proof. reflexivity. Qed.

Lemma contains_cons (sub : string) (c : ascii) (s : string) :
  contains sub (String c s) =
  if String.prefix sub (String c s) then true else contains sub s.
Proof. reflexivity. Qed.

Lemma contains_spec (sub s : string) :
  contains sub s = true <-> Occurs sub s.
Proof.
  unfold Occurs. split.
  - induction s as [|c s IH].
    + destruct sub; simpl; [|discriminate].
      intros _. now exists "", "".
    + rewrite contains_cons.
      destruct (String.prefix sub (String c s)) eqn:E.
      * intros _. apply prefix_spec in E. destruct E as [t Ht].
        exists "", t. exact Ht.
      * intros H. destruct (IH H) as (a & b & Hab).
        exists (String c a), b. simpl. now rewrite Hab.
  - intros (a & b & Hab). revert s Hab.
    induction a as [|x a IH]; intros s Hab.
    + simpl in Hab.
      assert (E : String.prefix sub s = true)
        by (apply prefix_spec; now exists b).
      destruct s; [rewrite contains_nil | rewrite contains_cons];
        now rewrite E.
    + simpl in Hab. subst s. rewrite contains_cons.
      destruct (String.prefix sub _); [reflexivity|].
      now apply IH.
Qed.

Lemma split_not_nil (sep : ascii) (s : string) : split sep s <> [].
Proof.
  destruct s as [|c s]; simpl; [discriminate|].
  destruct (Ascii.eqb c sep); [discriminate|].
  destruct (split sep s); discriminate.
Qed.

Lemma join_cons2 (sep x y : string) (rest : list string) :
  join sep (x :: y :: rest) = x ++ sep ++ join sep (y :: rest).
Proof. reflexivity. Qed.

Lemma join_split (sep : ascii) (s : string) :
  join (String sep "") (split sep s) = s.
Proof.
  induction s as [|c s IH]; [reflexivity|].
  simpl split. destruct (Ascii.eqb_spec c sep) as [->|Hne].
  - pose proof (split_not_nil sep s) as Hn.
    destruct (split sep s) as [|y rest]; [congruence|].
    rewrite join_cons2, IH. reflexivity.
  - pose proof (split_not_nil sep s) as Hn.
    destruct (split sep s) as [|y rest]; [congruence|].
    destruct rest as [|z rest].
    + simpl in *. now rewrite IH.
    + rewrite <- IH. now rewrite !join_cons2.
Qed.

Lemma occurs_char_nil (c : ascii) : ~ Occurs (String c "") "".
Proof. intros (a & b & H). destruct a; discriminate. Qed.

Lemma occurs_char_cons (c d : ascii) (s : string) :
  Occurs (String c "") (String d s) -> d = c \/ Occurs (String c "") s.
Proof.
  intros (a & b & H). destruct a as [|x a]; simpl in H.
  - left. now inversion H.
  - right. inversion H. now exists a, b.
Qed.

Lemma split_no_sep (sep : ascii) (s : string) :
  Forall (fun l => ~ Occurs (String sep "") l) (split sep s).
Proof.
  induction s as [|c s IH]; simpl.
  - constructor; [apply occurs_char_nil | constructor].
  - destruct (Ascii.eqb_spec c sep) as [->|Hne].
    + constructor; [apply occurs_char_nil | exact IH].
    + destruct (split sep s) as [|y rest].
      * constructor; [|constructor].
        intros H. apply occurs_char_cons in H.
        destruct H as [H|H]; [congruence | now apply occurs_char_nil in H].
      * inversion IH as [|? ? Hy Hrest]; subst.
        constructor; [|exact Hrest].
        intros H. apply occurs_char_cons in H.
        destruct H as [H|H]; [congruence | now apply Hy].
Qed.

Lemma split_lines (content : string) : LinesOf content (split LF content).
Proof.
  repeat split;
    [apply split_not_nil | apply join_split | apply split_no_sep].
Qed.

(** The lines of a text are determined by the text. *)
Lemma occurs_char_tail (c d : ascii) (s : string) :
  Occurs (String c "") s -> Occurs (String c "") (String d s).
Proof. intros (a & b & ->). now exists (String d a), b. Qed.

Lemma occurs_char_here (c : ascii) (a b : string) :
  Occurs (String c "") (a ++ String c b).
Proof. now exists a, b. Qed.

Lemma field_split_unique (c : ascii) (a : string) :
  forall b x y,
    ~ Occurs (String c "") a -> ~ Occurs (String c "") b ->
    a ++ String c x = b ++ String c y -> a = b /\ x = y.
Proof.
  induction a as [|d a IH]; intros [|e b] x y Ha Hb E; simpl in E.
  - injection E as Hx. now split.
  - injection E as Hc Hx. exfalso. apply Hb. rewrite <- Hc.
    apply (occurs_char_here c "" b).
  - injection E as Hc Hx. exfalso. apply Ha. rewrite Hc.
    apply (occurs_char_here c "" a).
  - injection E as Hc Hx. rewrite Hc in *.
    destruct (IH b x y) as [Hab Hxy]; auto using occurs_char_tail.
    now rewrite Hab, Hxy.
Qed.

Lemma lines_unique (content : string) (l1 : list string) :
  forall l2, LinesOf content l1 -> LinesOf content l2 -> l1 = l2.
Proof.
  unfold LinesOf. revert content.
  induction l1 as [|a l1 IH]; intros content l2 (N1 & J1 & F1) (N2 & J2 & F2);
    [congruence|].
  destruct l2 as [|b l2]; [congruence|].
  inversion F1 as [|? ? Ha F1']; inversion F2 as [|? ? Hb F2']; subst.
  destruct l1 as [|x r], l2 as [|y r'].
  - simpl in J2. now subst.
  - rewrite join_cons2 in J2. simpl in J2. exfalso. apply Ha. rewrite <- J2.
    apply occurs_char_here.
  - rewrite join_cons2 in J2. simpl in J2. exfalso. apply Hb. rewrite J2.
    apply occurs_char_here.
  - rewrite !join_cons2 in J2.
    destruct (field_split_unique LF b a _ _ Hb Ha J2) as [-> E].
    f_equal. apply (IH (join (String LF "") (x :: r))).
    + repeat split; [discriminate | exact F1'].
    + repeat split; [discriminate | exact E | exact F2'].
Qed.

End StringFacts.

(** ** White space, digits and [strip] *)

Section StripFacts.
Import PyStr Spec.

Lemma digit_not_space (c : ascii) :
  isdigit_char c = true -> isspace c = false.
Proof.
  destruct c as [[] [] [] [] [] [] [] []]; vm_compute;
    intros H; first [reflexivity | discriminate H].
Qed.

Lemma all_chars_app (p : ascii -> bool) (a b : string) :
  all_chars p (a ++ b) = all_chars p a && all_chars p b.
Proof.
  induction a as [|c a IH]; simpl; [reflexivity|].
  now rewrite IH, andb_assoc.
Qed.

Lemma lstrip_decomp (s : string) :
  exists a, s = a ++ lstrip s /\ all_chars isspace a = true.
Proof.
  induction s as [|c s (a & Ha & Hsp)]; simpl.
  - now exists "".
  - destruct (isspace c) eqn:E.
    + exists (String c a). simpl. rewrite E, Hsp. split; [now f_equal | reflexivity].
    + now exists "".
Qed.

Lemma rstrip_decomp (s : string) :
  exists b, s = rstrip s ++ b /\ all_chars isspace b = true.
Proof.
  induction s as [|c s (b & Hb & Hsp)]; simpl.
  - now exists "".
  - destruct (isspace c) eqn:E; simpl.
    + destruct (rstrip s) as [|d r] eqn:R; simpl.
      * exists (String c b). simpl in Hb. subst s. simpl.
        now rewrite E, Hsp.
      * exists b. split; [now rewrite Hb at 1 | exact Hsp].
    + exists b. split; [now rewrite Hb at 1 | exact Hsp].
Qed.

Lemma lstrip_spaces_app (a x : string) :
  all_chars isspace a = true -> lstrip (a ++ x) = lstrip x.
Proof.
  induction a as [|c a IH]; simpl; [reflexivity|].
  intros H. apply andb_true_iff in H. destruct H as [Hc Ha].
  rewrite Hc. now apply IH.
Qed.

Lemma rstrip_spaces (b : string) :
  all_chars isspace b = true -> rstrip b = "".
Proof.
  induction b as [|c b IH]; simpl; [reflexivity|].
  intros H. apply andb_true_iff in H. destruct H as [Hc Hb].
  now rewrite (IH Hb), Hc.
Qed.

Lemma rstrip_app_spaces (d b : string) :
  all_chars isspace b = true -> rstrip (d ++ b) = rstrip d.
Proof.
  intros Hb. induction d as [|c d IH]; simpl.
  - now apply rstrip_spaces.
  - now rewrite IH.
Qed.

Lemma rstrip_digits (d : string) :
  all_chars isdigit_char d = true -> rstrip d = d.
Proof.
  induction d as [|c d IH]; simpl; [reflexivity|].
  intros H. apply andb_true_iff in H. destruct H as [Hc Hd].
  now rewrite (IH Hd), (digit_not_space c Hc).
Qed.

Lemma strip_decomp (l : string) :
  exists a b,
    l = a ++ strip l ++ b
    /\ all_chars isspace a = true /\ all_chars isspace b = true.
Proof.
  destruct (lstrip_decomp l) as (a & Ha & Hsa).
  destruct (rstrip_decomp (lstrip l)) as (b & Hb & Hsb).
  exists a, b. unfold strip. now rewrite <- Hb.
Qed.

Lemma strip_index (a d b : string) :
  all_chars isspace a = true -> all_chars isspace b = true ->
  d <> "" -> all_chars isdigit_char d = true ->
  strip (a ++ d ++ b) = d.
Proof.
  intros Ha Hb Hne Hd. unfold strip.
  rewrite (lstrip_spaces_app _ _ Ha).
  destruct d as [|c d]; [congruence|].
  pose proof Hd as Hd'. simpl in Hd'.
  apply andb_true_iff in Hd'. destruct Hd' as [Hc _].
  assert (E : lstrip (String c d ++ b) = String c d ++ b)
    by (simpl; now rewrite (digit_not_space c Hc)).
  rewrite E, (rstrip_app_spaces _ _ Hb). now apply rstrip_digits.
Qed.

Lemma isdigit_strip_spec (l : string) :
  isdigit (strip l) = true <-> IndexLine l.
Proof.
  unfold IndexLine, isdigit. split.
  - intros H. apply andb_true_iff in H. destruct H as [Hne Hd].
    destruct (strip_decomp l) as (a & b & Hl & Ha & Hb).
    exists a, (strip l), b. repeat split; try assumption.
    intros E. rewrite E in Hne. discriminate.
  - intros (a & d & b & -> & Ha & Hb & Hne & Hd).
    rewrite (strip_index a d b Ha Hb Hne Hd), Hd.
    destruct d; [congruence | reflexivity].
Qed.

End StripFacts.

(** ** Cleaning a subtitle artifact *)

Section CleaningFacts.
Import PyStr Spec Subtitles.

Lemma keep_vtt_line_false (l : string) :
  keep_vtt_line l = false <-> VttNoise l.
Proof.
  unfold keep_vtt_line, VttNoise, TimingLine, startswith.
  rewrite <- is_empty_true, <- prefix_spec, <- contains_spec,
    <- isdigit_strip_spec.
  destruct (is_empty l), (String.prefix "WEBVTT" l),
    (contains "-->" l), (isdigit (strip l)); simpl; intuition congruence.
Qed.

Lemma keep_srt_line_false (l : string) :
  keep_srt_line l = false <-> SrtNoise l.
Proof.
  unfold keep_srt_line, SrtNoise, TimingLine.
  rewrite <- is_empty_true, <- contains_spec, <- isdigit_strip_spec.
  destruct (is_empty l), (contains "-->" l), (isdigit (strip l));
    simpl; intuition congruence.
Qed.

Lemma filter_stripped (keep : string -> bool) (noise : string -> Prop) :
  (forall l, keep l = false <-> noise l) ->
  forall lines, Stripped noise lines (filter keep lines).
Proof.
  intros Hk lines. induction lines as [|l ls IH]; simpl.
  - constructor.
  - destruct (keep l) eqn:E.
    + apply Stripped_keep; [|exact IH].
      intros Hn. apply Hk in Hn. congruence.
    + apply Stripped_drop; [|exact IH]. now apply Hk.
Qed.

(** C5: the candidate text of a subtitle artifact is what is left of its
    lines once every empty line, every timing line (one with the arrow),
    every cue index (digits only) and, for WebVTT, every header line
    has been taken out, joined by single spaces; the runner of
    [test_ytdlp_advanced.py] reports exactly that text for the artifact
    it finds. *)
Theorem C5_artifact_text_is_stripped_payload :
  forall content : string,
    exists lines,
      LinesOf content lines
      /\ (exists kept,
             Stripped VttNoise lines kept
             /\ clean_vtt content = join " " kept)
      /\ (exists kept,
             Stripped SrtNoise lines kept
             /\ clean_srt content = join " " kept)
      /\ (forall run glob cmd strategy video_id proc vtt_file rest size,
             run cmd = inr proc ->
             glob (video_id ++ "_" ++ strategy ++ ".*.vtt")
               = inr (vtt_file :: rest) ->
             YtDlp.read_text vtt_file = inr content ->
             YtDlp.st_size vtt_file = inr size ->
             YtDlp.text (YtDlp._run_command run glob cmd strategy video_id)
               = Some (clean_vtt content)).
Proof.
  intros content. exists (split LF content).
  split; [apply split_lines|]. split; [|split].
  - exists (filter keep_vtt_line (split LF content)).
    split; [apply filter_stripped, keep_vtt_line_false | reflexivity].
  - exists (filter keep_srt_line (split LF content)).
    split; [apply filter_stripped, keep_srt_line_false | reflexivity].
  - intros run glob cmd strategy video_id proc vtt_file rest size
      Hrun Hglob Hread Hsize.
    unfold YtDlp._run_command. now rewrite Hrun, Hglob, Hread, Hsize.
Qed.

End CleaningFacts.

(** ** Classification of a yt-dlp run *)

Section RunnerFacts.
Import PyStr Spec YtDlp Fixtures.

(** C2, as the runner has it: when yt-dlp ran and the glob finds no
    artifact, the attempt fails and is flagged rate limited exactly when
    the error output contains the marker 429.  The exit code is not
    consulted: when an artifact is found and can be read the attempt
    succeeds and carries no flag.  When the glob or the reading of the
    artifact raises, the attempt is a plain failure without a flag,
    whatever the error output holds. *)
Theorem C2_missing_artifact_classified_by_marker :
  forall run glob cmd strategy video_id proc,
    run cmd = inr proc ->
    let r := _run_command run glob cmd strategy video_id in
    (glob (artifact_pattern strategy video_id) = inr [] ->
       success r = false
       /\ error r = Some "No VTT file created"
       /\ (get_rate_limited r = true <-> Occurs "429" (proc_stderr proc)))
    /\ (forall vtt_file rest content size,
          glob (artifact_pattern strategy video_id) = inr (vtt_file :: rest) ->
          read_text vtt_file = inr content ->
          st_size vtt_file = inr size ->
          success r = true /\ get_rate_limited r = false)
    /\ (forall e,
          glob (artifact_pattern strategy video_id) = inl e
          \/ (exists vtt_file rest,
                 glob (artifact_pattern strategy video_id)
                 = inr (vtt_file :: rest)
                 /\ (read_text vtt_file = inl e
                     \/ (exists content,
                            read_text vtt_file = inr content
                            /\ st_size vtt_file = inl e))) ->
          success r = false
          /\ error r = Some (exn_msg e)
          /\ get_rate_limited r = false).
Proof.
  intros run glob cmd strategy video_id proc Hrun r. subst r.
  unfold _run_command, artifact_pattern. rewrite Hrun. split; [|split].
  - intros ->. unfold get_rate_limited. simpl.
    repeat split; try apply contains_spec; auto.
  - intros f rest content size -> -> ->. now split.
  - intros e [->|(f & rest & -> & [->|(content & -> & ->)])];
      now repeat split.
Qed.

Lemma C2_missing_artifact_witness :
  let r := _run_command rate_limited_run no_artifact [] "android"
             "dQw4w9WgXcQ" in
  success r = false
  /\ error r = Some "No VTT file created"
  /\ (get_rate_limited r = true <->
      Occurs "429" "ERROR: HTTP Error 429: Too Many Requests").
Proof.
  exact (proj1 (C2_missing_artifact_classified_by_marker
                  rate_limited_run no_artifact [] "android" "dQw4w9WgXcQ" _
                  eq_refl)
           eq_refl).
Defined.

(** The exit code takes no part in the classification: a run that exits
    with status 1 and reports 429, but for which the glob finds a
    readable artifact, is a success. *)
Lemma C2_nonzero_exit_counterexample :
  ~ (forall run glob cmd strategy video_id proc,
        run cmd = inr proc ->
        glob (artifact_pattern strategy video_id) = inr []
        \/ returncode proc <> 0%Z ->
        let r := _run_command run glob cmd strategy video_id in
        success r = false
        /\ (get_rate_limited r = true <-> Occurs "429" (proc_stderr proc))).
Proof.
  intros H.
  specialize (H rate_limited_run stale_artifact [] "android" "dQw4w9WgXcQ"
                _ eq_refl).
  destruct H as [Hs _]; [right; discriminate | discriminate Hs].
Qed.

End RunnerFacts.

(** ** The search loops *)

Section SearchFacts.
Import PyStr Spec Transcripts Fixtures.

Variable write_text : string -> string -> outcome unit.

Lemma strategy2_loop_cons (t : Transcript) (rest : list Transcript)
  (w : World) :
  strategy2_loop write_text (t :: rest) w
  = let w2 := call (language_code t) (sleep 1 w) in
    match fetch t with
    | inr data =>
        if long_enough (join " " data) then
          match write_text (track_file (language_code t)) (join " " data)
          with
          | inr _ =>
              write_file (track_file (language_code t)) (join " " data) w2
          | inl _ => strategy2_loop write_text rest w2
          end
        else strategy2_loop write_text rest w2
    | inl _ => strategy2_loop write_text rest w2
    end.
Proof. reflexivity. Qed.

Lemma strategies_loop_cons (name : string) (f : outcome (list string))
  (rest : list (string * outcome (list string))) (w : World) :
  strategies_loop write_text ((name, f) :: rest) w
  = let w1 := call name w in
    match f with
    | inr transcript =>
        match write_text (debug_file name) (join " " transcript) with
        | inr _ => write_file (debug_file name) (join " " transcript) w1
        | inl _ => strategies_loop write_text rest w1
        end
    | inl _ => strategies_loop write_text rest w1
    end.
Proof. reflexivity. Qed.

Lemma strategy2_loop_skip (t : Transcript) (rest : list Transcript) (w : World) :
  saved_track write_text t = false ->
  strategy2_loop write_text (t :: rest) w
  = strategy2_loop write_text rest (call (language_code t) (sleep 1 w)).
Proof.
  rewrite strategy2_loop_cons. unfold saved_track. cbv zeta.
  destruct (fetch t) as [e|data]; [reflexivity|].
  destruct (long_enough (join " " data)); [|reflexivity].
  destruct (write_text _ _); [reflexivity | discriminate].
Qed.

Lemma strategy2_loop_accept (t : Transcript) (rest : list Transcript)
  (w : World) (data : list string) :
  fetch t = inr data -> long_enough (join " " data) = true ->
  write_text (track_file (language_code t)) (join " " data) = inr tt ->
  strategy2_loop write_text (t :: rest) w
  = write_file (track_file (language_code t)) (join " " data)
      (call (language_code t) (sleep 1 w)).
Proof.
  intros F L W. rewrite strategy2_loop_cons. cbv zeta.
  now rewrite F, L, W.
Qed.

Lemma saved_track_inv (t : Transcript) :
  saved_track write_text t = true ->
  exists data,
    fetch t = inr data /\ long_enough (join " " data) = true
    /\ write_text (track_file (language_code t)) (join " " data) = inr tt.
Proof.
  unfold saved_track. destruct (fetch t) as [e|data]; [discriminate|].
  intros H. apply andb_true_iff in H. destruct H as [L W].
  exists data. repeat split; [exact L|].
  destruct (write_text _ _) as [e|[]]; [discriminate | reflexivity].
Qed.

Lemma accepted_not_saved (t : Transcript) :
  accepted_track t = false -> saved_track write_text t = false.
Proof.
  unfold accepted_track, saved_track.
  destruct (fetch t) as [e|data]; [reflexivity|]. now intros ->.
Qed.

(** Strategy 2 stops at the first track that is fetched, long enough and
    saved: that one text is written, and the tracks after it are not
    fetched. *)
Lemma strategy2_loop_first_saved (ts : list Transcript) :
  forall w,
    (exists pre t post data,
        ts = (pre ++ t :: post)%list
        /\ Forall (fun x => saved_track write_text x = false) pre
        /\ fetch t = inr data
        /\ long_enough (join " " data) = true
        /\ write_text (track_file (language_code t)) (join " " data)
           = inr tt
        /\ files (strategy2_loop write_text ts w)
           = (files w ++ [(track_file (language_code t),
                           join " " data)])%list
        /\ invoked (strategy2_loop write_text ts w)
           = (invoked w ++ map language_code (pre ++ [t]))%list)
    \/ (Forall (fun x => saved_track write_text x = false) ts
        /\ files (strategy2_loop write_text ts w) = files w
        /\ invoked (strategy2_loop write_text ts w)
           = (invoked w ++ map language_code ts)%list).
Proof.
  induction ts as [|t rest IH]; intros w.
  - right. simpl. rewrite app_nil_r. now repeat split.
  - destruct (saved_track write_text t) eqn:A.
    + left. destruct (saved_track_inv t A) as (data & F & L & W).
      exists [], t, rest, data.
      rewrite (strategy2_loop_accept t rest w data F L W).
      simpl. now repeat split.
    + rewrite (strategy2_loop_skip t rest w A).
      destruct (IH (call (language_code t) (sleep 1 w)))
        as [(pre & t' & post & data & -> & Hpre & F & L & W & Hf & Hi)
           | (Hall & Hf & Hi)].
      * left. exists (t :: pre), t', post, data.
        rewrite Hf, Hi. simpl. rewrite <- app_assoc.
        repeat split; auto.
      * right. rewrite Hf, Hi. simpl. rewrite <- app_assoc.
        repeat split; auto.
Qed.

Lemma strategies_loop_skip (s : string * outcome (list string))
  (rest : list (string * outcome (list string))) (w : World) :
  saved_strategy write_text s = false ->
  strategies_loop write_text (s :: rest) w
  = strategies_loop write_text rest (call (fst s) w).
Proof.
  destruct s as [name [e|transcript]]; rewrite strategies_loop_cons;
    unfold saved_strategy; cbn [fst snd]; cbv zeta; [reflexivity|].
  destruct (write_text (debug_file name) (join " " transcript));
    [reflexivity | discriminate].
Qed.

(** The debug script stops at the first strategy whose call returns and
    whose text is saved. *)
Lemma strategies_loop_first_saved
  (strategies : list (string * outcome (list string))) :
  forall w,
    (exists pre name transcript post,
        strategies = (pre ++ (name, inr transcript) :: post)%list
        /\ Forall (fun s => saved_strategy write_text s = false) pre
        /\ write_text (debug_file name) (join " " transcript) = inr tt
        /\ files (strategies_loop write_text strategies w)
           = (files w ++ [(debug_file name, join " " transcript)])%list
        /\ invoked (strategies_loop write_text strategies w)
           = (invoked w ++ map fst (pre ++ [(name, inr transcript)]))%list)
    \/ (Forall (fun s => saved_strategy write_text s = false) strategies
        /\ files (strategies_loop write_text strategies w) = files w
        /\ invoked (strategies_loop write_text strategies w)
           = (invoked w ++ map fst strategies)%list).
Proof.
  induction strategies as [|s rest IH]; intros w.
  - right. simpl. rewrite app_nil_r. now repeat split.
  - destruct (saved_strategy write_text s) eqn:A.
    + left. destruct s as [name [e|transcript]]; [discriminate A|].
      unfold saved_strategy in A. simpl in A.
      destruct (write_text (debug_file name) (join " " transcript))
        as [e|[]] eqn:W; [discriminate A|].
      exists [], name, transcript, rest.
      rewrite strategies_loop_cons. cbv zeta. rewrite W.
      simpl. now repeat split.
    + rewrite (strategies_loop_skip s rest w A).
      destruct (IH (call (fst s) w))
        as [(pre & name' & tr & post & -> & Hpre & W & Hf & Hi)
           | (Hall & Hf & Hi)].
      * left. exists (s :: pre), name', tr, post.
        rewrite Hf, Hi. simpl. rewrite <- app_assoc.
        repeat split; auto.
      * right. rewrite Hf, Hi. simpl. rewrite <- app_assoc.
        repeat split; auto.
Qed.

(** C1, as the loops have it: each search loop saves at most one result.
    It tries its candidates in order and stops at the first one that
    succeeds, passes the acceptance check (the length check of
    [test-youtube-fix.py]; the debug script has none) and is saved: that
    candidate alone is written out, none before it was saved, and nothing
    after it is invoked.  A candidate whose saving raises is treated like
    any other failed attempt.  When no candidate is saved, all were tried
    and nothing is written. *)
Theorem C1_search_stops_at_first_saved_success :
  (forall ts w,
      List.length (files (strategy2_loop write_text ts w))
        <= S (List.length (files w))
      /\ ((exists pre t post data,
              ts = (pre ++ t :: post)%list
              /\ Forall (fun x => saved_track write_text x = false) pre
              /\ fetch t = inr data
              /\ long_enough (join " " data) = true
              /\ write_text (track_file (language_code t)) (join " " data)
                 = inr tt
              /\ files (strategy2_loop write_text ts w)
                 = (files w
                    ++ [(track_file (language_code t),
                         join " " data)])%list
              /\ invoked (strategy2_loop write_text ts w)
                 = (invoked w ++ map language_code (pre ++ [t]))%list)
          \/ (Forall (fun x => saved_track write_text x = false) ts
              /\ files (strategy2_loop write_text ts w) = files w
              /\ invoked (strategy2_loop write_text ts w)
                 = (invoked w ++ map language_code ts)%list)))
  /\ (forall strategies w,
         List.length (files (strategies_loop write_text strategies w))
           <= S (List.length (files w))
         /\ ((exists pre name transcript post,
                 strategies = (pre ++ (name, inr transcript) :: post)%list
                 /\ Forall (fun s => saved_strategy write_text s = false) pre
                 /\ write_text (debug_file name) (join " " transcript)
                    = inr tt
                 /\ files (strategies_loop write_text strategies w)
                    = (files w
                       ++ [(debug_file name, join " " transcript)])%list
                 /\ invoked (strategies_loop write_text strategies w)
                    = (invoked w
                       ++ map fst (pre ++ [(name, inr transcript)]))%list)
             \/ (Forall (fun s => saved_strategy write_text s = false)
                   strategies
                 /\ files (strategies_loop write_text strategies w) = files w
                 /\ invoked (strategies_loop write_text strategies w)
                    = (invoked w ++ map fst strategies)%list))).
Proof.
  split.
  - intros ts w. pose proof (strategy2_loop_first_saved ts w) as H.
    split; [|exact H].
    destruct H as [(pre & t & post & data & _ & _ & _ & _ & _ & Hf & _)
                  | (_ & Hf & _)];
      rewrite Hf; [rewrite length_app; simpl|]; lia.
  - intros strategies w.
    pose proof (strategies_loop_first_saved strategies w) as H.
    split; [|exact H].
    destruct H as [(pre & name & tr & post & _ & _ & _ & Hf & _)
                  | (_ & Hf & _)];
      rewrite Hf; [rewrite length_app; simpl|]; lia.
Qed.

End SearchFacts.

(** A success that passes the length check does not always end the
    search: the text of the first track cannot be saved under a name with
    a slash, the [except] swallows the error, and the second track is
    fetched and saved. *)
Lemma C1_unsaved_success_counterexample :
  ~ (forall write_text ts w pre t post,
        ts = (pre ++ t :: post)%list ->
        Forall (fun x => Spec.accepted_track x = false) pre ->
        Spec.accepted_track t = true ->
        Transcripts.invoked (Transcripts.strategy2_loop write_text ts w)
        = (Transcripts.invoked w
           ++ map Transcripts.language_code (pre ++ [t]))%list).
Proof.
  intros H.
  specialize (H Fixtures.no_subdirectory
                [Fixtures.slash_track; Fixtures.english_track]
                Transcripts.world_init [] Fixtures.slash_track
                [Fixtures.english_track] eq_refl (Forall_nil _)).
  assert (A : Spec.accepted_track Fixtures.slash_track = true)
    by (vm_compute; reflexivity).
  specialize (H A). vm_compute in H. discriminate H.
Qed.

(** ** The acceptance checks *)

Section AcceptanceFacts.
Import PyStr Spec Transcripts Fixtures.

Lemma long_enough_false (full_text : string) :
  long_enough full_text = false <-> (len full_text <= 500)%nat.
Proof. unfold long_enough. apply Nat.ltb_ge. Qed.

(** C3, as the scripts have it: the length check of Strategy 2 rejects a
    fetched text of 500 characters or fewer and accepts any longer one; a
    track rejected by it writes nothing and the loop goes on with the
    next track; in the validation of [test-youtube-real.py] the length
    test (there against 1000) is the first one and alone decides for a
    short text. *)
Theorem C3_length_check_boundary_is_500 :
  (forall full_text,
      long_enough full_text = false <-> (len full_text <= 500)%nat)
  /\ (forall write_text t data rest w,
         fetch t = inr data ->
         (len (join " " data) <= 500)%nat ->
         strategy2_loop write_text (t :: rest) w
         = strategy2_loop write_text rest
             (call (language_code t) (sleep 1 w)))
  /\ (forall full_text,
         (len full_text <= 1000)%nat -> likely_valid full_text = false).
Proof.
  split; [exact long_enough_false|]. split.
  - intros write_text t data rest w F L. apply strategy2_loop_skip.
    apply accepted_not_saved.
    unfold accepted_track. rewrite F. now apply long_enough_false.
  - intros full_text L. unfold likely_valid.
    apply Nat.ltb_ge in L. now rewrite L.
Qed.

(** A text of 300 characters is not below a threshold of 200, and the
    length check rejects it. *)
Lemma C3_threshold_200_counterexample :
  ~ (forall full_text,
        long_enough full_text = false <-> (len full_text < 200)%nat).
Proof.
  intros H. specialize (H medium_text). destruct H as [H _].
  assert (L : (len medium_text < 200)%nat) by (apply H; vm_compute; reflexivity).
  vm_compute in L. lia.
Qed.

End AcceptanceFacts.

(** ** Pacing of the attempts *)

Section PacingFacts.
Import PyStr Spec Fixtures.

Lemma main_loop_trace
  (strategies : list (string * (string -> YtDlp.StrategyResult)))
  (url : string) :
  forall st,
    YtDlp.slept (YtDlp.main_loop strategies url st)
    = (YtDlp.slept st ++ repeat 2 (List.length strategies))%list
    /\ YtDlp.results (YtDlp.main_loop strategies url st)
       = (YtDlp.results st
          ++ map (fun s => (fst s, snd s url)) strategies)%list
    /\ YtDlp.log (YtDlp.main_loop strategies url st)
       = (YtDlp.log st ++ main_steps url strategies)%list.
Proof.
  induction strategies as [|[name f] rest IH]; intros st; simpl.
  - now rewrite !app_nil_r.
  - match goal with
    | |- context [YtDlp.main_loop rest url ?st'] =>
        destruct (IH st') as (Hs & Hr & Hl)
    end.
    rewrite Hs, Hr, Hl. simpl. now rewrite <- !app_assoc.
Qed.

Lemma track_steps_saved (write_text : string -> string -> outcome unit)
  (t : Transcripts.Transcript) (data : list string) :
  Transcripts.fetch t = inr data -> saved_track write_text t = true ->
  track_steps write_text t
  = [Transcripts.Slept 1; Transcripts.Called (Transcripts.language_code t);
     Transcripts.Wrote (track_file (Transcripts.language_code t))
       (join " " data)].
Proof. intros F A. unfold track_steps. now rewrite F, A. Qed.

Lemma track_steps_unsaved (write_text : string -> string -> outcome unit)
  (t : Transcripts.Transcript) :
  saved_track write_text t = false ->
  track_steps write_text t
  = [Transcripts.Slept 1; Transcripts.Called (Transcripts.language_code t)].
Proof.
  intros A. unfold track_steps. rewrite A.
  now destruct (Transcripts.fetch t).
Qed.

Lemma strategy2_loop_steps (write_text : string -> string -> outcome unit)
  (ts : list Transcripts.Transcript) :
  forall w, exists tried rest,
    ts = (tried ++ rest)%list
    /\ Transcripts.events (Transcripts.strategy2_loop write_text ts w)
       = (Transcripts.events w ++ flat_map (track_steps write_text) tried)%list
    /\ Transcripts.slept (Transcripts.strategy2_loop write_text ts w)
       = (Transcripts.slept w ++ repeat 1 (List.length tried))%list
    /\ Transcripts.invoked (Transcripts.strategy2_loop write_text ts w)
       = (Transcripts.invoked w
          ++ map Transcripts.language_code tried)%list.
Proof.
  induction ts as [|t rest IH]; intros w.
  - exists [], []. simpl. now rewrite !app_nil_r.
  - destruct (saved_track write_text t) eqn:A.
    + destruct (saved_track_inv write_text t A) as (data & F & L & W).
      rewrite (strategy2_loop_accept write_text t rest w data F L W).
      exists [t], rest. cbn [flat_map].
      rewrite (track_steps_saved write_text t data F A). simpl.
      rewrite <- !app_assoc. now repeat split.
    + rewrite (strategy2_loop_skip write_text t rest w A).
      destruct (IH (Transcripts.call (Transcripts.language_code t)
                      (Transcripts.sleep 1 w)))
        as (tried & rest' & -> & He & Hs & Hi).
      exists (t :: tried), rest'. rewrite He, Hs, Hi. cbn [flat_map].
      rewrite (track_steps_unsaved write_text t A). simpl.
      rewrite <- !app_assoc. now repeat split.
Qed.

(** C4, as the scripts have it: every wait is a constant written in the
    script, and no outcome changes it.  [main] of
    [test_ytdlp_advanced.py] runs each strategy and then sleeps 2
    seconds, whatever the result; [test-youtube-fix.py] sleeps 2 seconds
    before each of its two strategies and 1 second immediately before
    each track fetch; [test-youtube-real.py] sleeps 3 seconds once,
    before its first request.  So the wait is the same after any number
    of rate-limited outcomes, it never exceeds 3 seconds, and a success
    does not bring it back to zero. *)
Theorem C4_wait_between_attempts_is_constant :
  (forall strategies url,
      let st := YtDlp.main_loop strategies url YtDlp.main_init in
      YtDlp.log st = main_steps url strategies
      /\ YtDlp.slept st = repeat 2 (List.length strategies)
      /\ YtDlp.results st = map (fun s => (fst s, snd s url)) strategies)
  /\ (forall write_text get_transcript list_transcripts,
         let w := Transcripts.youtube_fix write_text get_transcript
                    list_transcripts Transcripts.world_init in
         exists tried,
           (forall ts, list_transcripts = inr ts ->
                       exists rest, ts = (tried ++ rest)%list)
           /\ (forall e, list_transcripts = inl e -> tried = [])
           /\ Transcripts.events w
              = ([Transcripts.Slept 2; Transcripts.Called "get_transcript"]
                 ++ fixed_steps write_text get_transcript
                 ++ [Transcripts.Slept 2;
                     Transcripts.Called "list_transcripts"]
                 ++ flat_map (track_steps write_text) tried)%list
           /\ Transcripts.slept w
              = 2 :: 2 :: repeat 1 (List.length tried)
           /\ Forall (fun n => n <= 3) (Transcripts.slept w))
  /\ (forall write_text list_transcripts fetch_en,
         let w := Transcripts.youtube_real write_text list_transcripts
                    fetch_en Transcripts.world_init in
         Transcripts.slept w = [3]
         /\ exists later,
              Transcripts.events w
              = Transcripts.Slept 3 :: Transcripts.Called "list" :: later).
Proof.
  split; [|split].
  - intros strategies url st. subst st.
    destruct (main_loop_trace strategies url YtDlp.main_init)
      as (Hs & Hr & Hl).
    now rewrite Hs, Hr, Hl.
  - intros write_text g l w. subst w. unfold Transcripts.youtube_fix.
    assert (Hle : forall n, Forall (fun k => k <= 3) (2 :: 2 :: repeat 1 n)).
    { intros n. repeat constructor.
      apply Forall_forall. intros k Hk. apply repeat_spec in Hk. lia. }
    destruct l as [e|ts].
    + exists []. split; [discriminate|]. split; [reflexivity|].
      unfold fixed_steps.
      destruct g as [e'|text]; [|destruct (write_text _ text)]; simpl;
        repeat split; apply (Hle 0).
    + match goal with
      | |- context [Transcripts.strategy2_loop write_text ts ?w] =>
          destruct (strategy2_loop_steps write_text ts w)
            as (tried & rest & Hts & He & Hs & _)
      end.
      exists tried. split.
      { intros ts' E. injection E as <-. now exists rest. }
      split; [discriminate|].
      rewrite He, Hs. unfold fixed_steps.
      destruct g as [e'|text]; [|destruct (write_text _ text)]; simpl;
        repeat split; apply Hle.
  - intros write_text l f w. subst w. unfold Transcripts.youtube_real.
    destruct l as [e|ts]; [split; [reflexivity | now eexists]|].
    destruct f as [e|[entries|]]; simpl;
      try (split; [reflexivity | now eexists]).
    destruct (write_text _ _); split; try reflexivity; now eexists.
Qed.

(** After a strategy of [main] that succeeded, the pause is still 2
    seconds: with yt-dlp leaving a readable artifact, the basic strategy
    succeeds and the next step of [main] is a pause of 2. *)
Lemma C4_no_reset_counterexample :
  ~ (forall output_dir run glob pre name r d post,
        YtDlp.log (YtDlp.main output_dir run glob)
        = (pre ++ YtDlp.Ran name r :: YtDlp.Paused d :: post)%list ->
        YtDlp.success r = true -> d = 0).
Proof.
  intros H.
  specialize (H "/tmp/ytdlp_advanced" rate_limited_run stale_artifact []
                "Basic"
                (YtDlp.strategy_1_basic "/tmp/ytdlp_advanced"
                   rate_limited_run stale_artifact YtDlp.test_url)
                2
                (skipn 2 (YtDlp.log (YtDlp.main "/tmp/ytdlp_advanced"
                                       rate_limited_run stale_artifact)))
                eq_refl eq_refl).
  discriminate H.
Qed.

End PacingFacts.

(** ** [POST /convert] *)

Section ConvertFacts.
Import PyStr Spec Server Fixtures.

Lemma uploaded_some (request : ConvertRequest) :
  supplies_file request ->
  exists filename,
    uploaded request = Some (filename, uploaded_bytes request).
Proof.
  unfold supplies_file, uploaded, uploaded_bytes.
  intros [[f Hf]|Hd].
  - rewrite Hf. now eexists.
  - destruct (assoc "file" (req_files request)) as [f|]; [now eexists|].
    destruct (req_data request) as [|b bs]; [congruence | now eexists].
Qed.

Lemma uploaded_none (request : ConvertRequest) :
  ~ supplies_file request -> uploaded request = None.
Proof.
  unfold supplies_file, uploaded. intros H.
  destruct (assoc "file" (req_files request)) as [f|].
  - exfalso. apply H. left. now exists f.
  - destruct (req_data request) as [|b bs]; [reflexivity|].
    exfalso. apply H. right. discriminate.
Qed.

Lemma assoc_snoc (metadata : list (string * json)) (k0 : string) (v0 : json) :
  forall k,
    assoc k (metadata ++ [(k0, v0)])%list
    = match assoc k metadata with
      | Some v => Some v
      | None => if String.eqb k k0 then Some v0 else None
      end.
Proof.
  intros k. induction metadata as [|[k' v] m IH].
  - reflexivity.
  - change (assoc k (((k', v) :: m) ++ [(k0, v0)])%list)
      with (if String.eqb k k' then Some v
            else assoc k (m ++ [(k0, v0)])%list).
    change (assoc k ((k', v) :: m))
      with (if String.eqb k k' then Some v else assoc k m).
    destruct (String.eqb k k'); [reflexivity | exact IH].
Qed.

Lemma with_title_keys (result : ConversionResult)
  (metadata : list (string * json)) :
  assoc "title" metadata = None ->
  assoc "title" (with_title result metadata)
  = option_map JStr (reported_title result)
  /\ (forall k, k <> "title" ->
        assoc k (with_title result metadata) = assoc k metadata).
Proof.
  intros Hn. unfold with_title, reported_title.
  destruct (title result) as [t|]; [destruct (is_empty t)|];
    try (split; [exact Hn | reflexivity]).
  split.
  - rewrite assoc_snoc, Hn. reflexivity.
  - intros k Hk. rewrite assoc_snoc.
    destruct (assoc k metadata); [reflexivity|].
    apply String.eqb_neq in Hk. now rewrite Hk.
Qed.

(** C6: a [POST /convert] that carries a file whose conversion succeeds
    is answered 200 with a [markdown] field holding the converted text
    (the [text_content] of the converter's result, or [str(result)] when
    the result has none) and a [metadata] object holding [filename],
    [size_bytes] (the number of uploaded bytes), [markdown_length] (the
    length of the markdown text) and a [title] exactly when the
    conversion reports one; the converter was called once, on the
    uploaded bytes. *)
Theorem C6_convert_success_response :
  forall convert_stream request result,
    supplies_file request ->
    convert_stream (uploaded_bytes request) = inr result ->
    let response := fst (convert_to_markdown convert_stream request) in
    let calls := snd (convert_to_markdown convert_stream request) in
    status_code response = 200
    /\ (forall t, text_content result = Some t ->
          field "markdown" (body response) = Some (JStr t))
    /\ (text_content result = None ->
          field "markdown" (body response) = Some (JStr (str_of result)))
    /\ (exists md metadata filename,
           field "markdown" (body response) = Some (JStr md)
           /\ field "metadata" (body response) = Some (JObj metadata)
           /\ assoc "filename" metadata = Some (JStr filename)
           /\ assoc "size_bytes" metadata
              = Some (JNum (Z.of_nat (List.length (uploaded_bytes request))))
           /\ assoc "markdown_length" metadata
              = Some (JNum (Z.of_nat (len md)))
           /\ assoc "title" metadata
              = option_map JStr (reported_title result))
    /\ calls = [uploaded_bytes request].
Proof.
  intros convert_stream request result Hs Hc response calls.
  subst response calls.
  destruct (uploaded_some request Hs) as [filename Hu].
  unfold convert_to_markdown, try_except, bind, invoke, ret.
  rewrite Hu. simpl. rewrite Hc. simpl.
  split; [reflexivity|]. split; [|split; [|split; [|reflexivity]]].
  - intros t Ht. unfold markdown_of. now rewrite Ht.
  - intros Hn. unfold markdown_of. now rewrite Hn.
  - set (m := [("filename", JStr filename);
               ("size_bytes",
                int_of_len (List.length (uploaded_bytes request)));
               ("markdown_length", int_of_len (len (markdown_of result)))]).
    destruct (with_title_keys result m eq_refl) as [Ht Hk].
    exists (markdown_of result), (with_title result m), filename.
    split; [reflexivity|]. split; [reflexivity|].
    rewrite !Hk by discriminate. now rewrite Ht.
Qed.

Lemma C6_convert_success_witness :
  supplies_file raw_upload
  /\ status_code (fst (convert_to_markdown converts_to_hello raw_upload))
     = 200
  /\ field "markdown"
       (body (fst (convert_to_markdown converts_to_hello raw_upload)))
     = Some (JStr "# Hello").
Proof.
  assert (Hs : supplies_file raw_upload) by (right; discriminate).
  split; [exact Hs|].
  pose proof (C6_convert_success_response converts_to_hello raw_upload
                _ Hs eq_refl) as (H200 & Htext & _).
  split; [exact H200 | exact (Htext "# Hello" eq_refl)].
Defined.

(** C7: a [POST /convert] with no [file] field and an empty body is
    answered 400 with the error [No file provided], and the converter is
    not called. *)
Theorem C7_convert_without_file_is_400 :
  forall convert_stream request,
    ~ supplies_file request ->
    let response := fst (convert_to_markdown convert_stream request) in
    let calls := snd (convert_to_markdown convert_stream request) in
    status_code response = 400
    /\ field "error" (body response) = Some (JStr "No file provided")
    /\ (exists message, field "message" (body response) = Some (JStr message))
    /\ calls = [].
Proof.
  intros convert_stream request Hn response calls. subst response calls.
  unfold convert_to_markdown, try_except, ret.
  rewrite (uploaded_none request Hn). simpl.
  repeat split. now eexists.
Qed.

Lemma C7_convert_without_file_witness :
  ~ supplies_file empty_post
  /\ status_code (fst (convert_to_markdown converts_to_hello empty_post))
     = 400.
Proof.
  assert (Hn : ~ supplies_file empty_post).
  { intros [[f Hf]|Hd]; [discriminate Hf | now apply Hd]. }
  split; [exact Hn|].
  exact (proj1 (C7_convert_without_file_is_400 converts_to_hello empty_post
                  Hn)).
Defined.

(** C8: when the conversion of the uploaded file raises, the converter
    has been called exactly once and the answer is 500 with the body
    [{error: Conversion failed, message: str(e), type: type(e).__name__}]. *)
Theorem C8_conversion_failure_is_500_once :
  forall convert_stream request e,
    supplies_file request ->
    convert_stream (uploaded_bytes request) = inl e ->
    let response := fst (convert_to_markdown convert_stream request) in
    let calls := snd (convert_to_markdown convert_stream request) in
    status_code response = 500
    /\ body response
       = JObj [("error", JStr "Conversion failed");
               ("message", JStr (exn_msg e));
               ("type", JStr (exn_type e))]
    /\ calls = [uploaded_bytes request]
    /\ List.length calls = 1.
Proof.
  intros convert_stream request e Hs Hc response calls.
  subst response calls.
  destruct (uploaded_some request Hs) as [filename Hu].
  unfold convert_to_markdown, try_except, bind, invoke, ret.
  rewrite Hu. simpl. rewrite Hc. simpl. now repeat split.
Qed.

Lemma C8_conversion_failure_witness :
  supplies_file raw_upload
  /\ status_code (fst (convert_to_markdown conversion_raises raw_upload))
     = 500.
Proof.
  assert (Hs : supplies_file raw_upload) by (right; discriminate).
  split; [exact Hs|].
  exact (proj1 (C8_conversion_failure_is_500_once conversion_raises
                  raw_upload _ Hs eq_refl)).
Defined.

End ConvertFacts.

(** ** [POST /convert/url] *)

Section ConvertUrlFacts.
Import PyStr Spec Server Fixtures.

(** A JSON object without the key [url], the empty object included, is
    answered 400 and nothing is converted. *)
Lemma convert_url_object_without_url :
  forall convert fields,
    assoc "url" fields = None ->
    convert_url_to_markdown convert (mkUrlReq (inr (JObj fields)))
    = (no_url_response, []).
Proof.
  intros convert fields Hn.
  unfold convert_url_to_markdown, try_except, bind, lift, ret. simpl.
  destruct fields as [|kv rest]; [reflexivity|].
  simpl negb. cbv iota. unfold py_in. now rewrite Hn.
Qed.

(** A falsy body ([null], [false], [0], the empty string, list or object)
    is answered 400. *)
Lemma convert_url_falsy_body :
  forall convert data,
    truthy data = false ->
    convert_url_to_markdown convert (mkUrlReq (inr data))
    = (no_url_response, []).
Proof.
  intros convert data Hf.
  unfold convert_url_to_markdown, try_except, bind, lift, ret. simpl.
  now rewrite Hf.
Qed.

(** A failing conversion of the given URL is answered 500 with the
    failure's text and kind, after exactly one call. *)
Lemma convert_url_conversion_fails :
  forall convert fields url e,
    assoc "url" fields = Some url ->
    convert url = inl e ->
    convert_url_to_markdown convert (mkUrlReq (inr (JObj fields)))
    = (url_conversion_failed e, [url]).
Proof.
  intros convert fields url e Hu Hc.
  unfold convert_url_to_markdown, try_except, bind, lift, ret, invoke.
  simpl. destruct fields as [|kv rest]; [discriminate Hu|].
  simpl negb. cbv iota. unfold py_in, py_getitem. rewrite Hu. simpl.
  now rewrite Hc.
Qed.

(** C9, on a body the guard does not handle: the body [5] is valid JSON
    and has no [url] field, yet the membership test of the guard raises
    [TypeError], which the handler's [except] answers with 500; nothing is
    converted. *)
Theorem C9_non_object_json_body_is_500 :
  forall convert,
    let response := fst (convert_url_to_markdown convert number_body) in
    let calls := snd (convert_url_to_markdown convert number_body) in
    status_code response = 500
    /\ field "error" (body response) = Some (JStr "URL conversion failed")
    /\ field "type" (body response) = Some (JStr "TypeError")
    /\ calls = [].
Proof. intros convert. now repeat split. Qed.

(** C10: when [request.get_json()] raises, the exception is caught by the
    handler's [except]: the answer is 500 with the error
    [URL conversion failed] and the exception's text and kind, not the 400
    of a missing field, and nothing is converted. *)
Theorem C10_unparseable_body_is_500 :
  forall convert e,
    let response :=
      fst (convert_url_to_markdown convert (mkUrlReq (inl e))) in
    let calls :=
      snd (convert_url_to_markdown convert (mkUrlReq (inl e))) in
    status_code response = 500
    /\ body response
       = JObj [("error", JStr "URL conversion failed");
               ("message", JStr (exn_msg e));
               ("type", JStr (exn_type e))]
    /\ response <> no_url_response
    /\ calls = [].
Proof. intros convert e. repeat split. discriminate. Qed.

End ConvertUrlFacts.

(** ** Runs on concrete inputs *)

Section Runs.
Import PyStr Spec Fixtures.

Example split_fields : split "," "a,,b," = ["a"; ""; "b"; ""].
Proof. reflexivity. Qed.

Example strip_index_line : strip "  12 " = "12" /\ isdigit "12" = true.
Proof. now split. Qed.

Example marker_found :
  contains "429" "ERROR: HTTP Error 429: Too Many Requests" = true.
Proof. reflexivity. Qed.

Example clean_sample_vtt :
  Subtitles.clean_vtt sample_vtt = "Never gonna give you up".
Proof. reflexivity. Qed.

Example clean_sample_srt :
  Subtitles.clean_srt sample_srt = "Never gonna give you up".
Proof. reflexivity. Qed.

Example rate_limited_run_is_flagged :
  let r := YtDlp._run_command rate_limited_run no_artifact [] "android"
             "dQw4w9WgXcQ" in
  YtDlp.success r = false /\ YtDlp.get_rate_limited r = true.
Proof. now split. Qed.

Example runner_reports_clean_text :
  let found (_ : string) : outcome (list YtDlp.VttFile) :=
    inr [YtDlp.mkVtt "/tmp/ytdlp_advanced/dQw4w9WgXcQ_web.en.vtt"
           (inr sample_vtt) (inr 112)] in
  let r := YtDlp._run_command rate_limited_run found [] "web" "dQw4w9WgXcQ" in
  YtDlp.success r = true
  /\ YtDlp.text r = Some "Never gonna give you up"
  /\ YtDlp.length r = Some 23.
Proof. now repeat split. Qed.

Example unreadable_artifact_is_a_plain_failure :
  let found (_ : string) : outcome (list YtDlp.VttFile) :=
    inr [YtDlp.mkVtt "/tmp/ytdlp_advanced/dQw4w9WgXcQ_web.en.vtt"
           (inl (mkExn "UnicodeDecodeError" "invalid start byte"))
           (inr 112)] in
  let r := YtDlp._run_command rate_limited_run found [] "web" "dQw4w9WgXcQ" in
  YtDlp.success r = false
  /\ YtDlp.error r = Some "invalid start byte"
  /\ YtDlp.get_rate_limited r = false.
Proof. now repeat split. Qed.

Example debug_loop_stops_at_first_success :
  let w :=
    Transcripts.strategies_loop writes_all
      [("Auto (any language)", inl (mkExn "NoTranscriptFound" ""));
       ("Portuguese", inr ["ola"; "mundo"]);
       ("English", inr ["hello"; "world"])]
      Transcripts.world_init in
  Transcripts.files w = [("transcript-Portuguese.txt", "ola mundo")]
  /\ Transcripts.invoked w = ["Auto (any language)"; "Portuguese"].
Proof. now split. Qed.

Example strategy2_goes_on_when_saving_fails :
  let w :=
    Transcripts.strategy2_loop no_subdirectory
      [slash_track; english_track] Transcripts.world_init in
  map fst (Transcripts.files w) = ["transcript-en.txt"]
  /\ Transcripts.invoked w = ["a/b"; "en"]
  /\ Transcripts.slept w = [1; 1].
Proof. vm_compute. now repeat split. Qed.

Example test_convert_missing_file :
  Server.convert_to_markdown converts_to_hello empty_post
  = (Server.no_file_response, []).
Proof. reflexivity. Qed.

Example test_convert_raw_upload :
  Server.convert_to_markdown converts_to_hello raw_upload
  = ((Server.JObj
        [("markdown", Server.JStr "# Hello");
         ("metadata",
          Server.JObj [("filename", Server.JStr "report.pdf");
                       ("size_bytes", Server.JNum 3);
                       ("markdown_length", Server.JNum 7);
                       ("title", Server.JStr "Hello")])],
      200),
     [[Byte.x25; Byte.x50; Byte.x44]]).
Proof. reflexivity. Qed.

Example test_convert_url_success_monkeypatch :
  Server.status_code
    (fst (Server.convert_url_to_markdown fake_convert example_url_request))
  = 200.
Proof. reflexivity. Qed.

Example test_convert_url_failure_monkeypatch :
  Server.convert_url_to_markdown fake_convert_fail example_url_request
  = (Server.url_conversion_failed (mkExn "RuntimeError" "conversion failed"),
     [Server.JStr "https://example.com"]).
Proof. reflexivity. Qed.

End Runs.

(** * Further properties of the code *)

(** ** Lengths and occurrences under [join] *)

Section JoinFacts.
Import PyStr Spec.

Lemma len_sapp (a b : string) : len (a ++ b) = len a + len b.
Proof.
  unfold len. induction a as [|c a IH]; simpl; [reflexivity | now rewrite IH].
Qed.

Lemma join_len (sep : string) (xs : list string) :
  len (join sep xs) = total_len xs + len sep * (List.length xs - 1).
Proof.
  induction xs as [|x [|y r] IH].
  - simpl. lia.
  - simpl. lia.
  - rewrite join_cons2, !len_sapp, IH.
    simpl total_len. simpl List.length. nia.
Qed.

Lemma filter_total_len (keep : string -> bool) (xs : list string) :
  total_len (filter keep xs) <= total_len xs
  /\ List.length (filter keep xs) <= List.length xs.
Proof.
  induction xs as [|x r [IH1 IH2]]; simpl; [lia|].
  destruct (keep x); simpl; lia.
Qed.

Lemma sapp_eq_sapp (x : string) :
  forall a u v,
    x ++ u = a ++ v ->
    (exists k, a = x ++ k /\ u = k ++ v)
    \/ (exists k, x = a ++ k /\ v = k ++ u).
Proof.
  induction x as [|c x IH]; intros a u v E.
  - left. exists a. now split.
  - destruct a as [|d a].
    + right. exists (String c x). now split.
    + simpl in E. injection E as Hc E.
      destruct (IH a u v E) as [(k & Ha & Hu)|(k & Hx & Hv)].
      * left. exists k. split; [simpl; congruence | exact Hu].
      * right. exists k. split; [simpl; congruence | exact Hv].
Qed.

(** An occurrence of [sub] in [a c b] lies in [a] or in [b] when [sub]
    does not contain the character [c]. *)
Lemma occurs_across_char (c : ascii) (sub a b : string) :
  ~ Occurs (String c "") sub ->
  Occurs sub (a ++ String c b) -> Occurs sub a \/ Occurs sub b.
Proof.
  intros Hfree (x & y & E). symmetry in E.
  destruct (sapp_eq_sapp x a (sub ++ y) (String c b) E)
    as [(k & Ha & Hu)|(k & Hx & Hv)].
  - destruct (sapp_eq_sapp sub k y (String c b) Hu)
      as [(k' & Hk & Hy)|(k' & Hsub & Hcb)].
    + left. exists x, k'. now rewrite Ha, Hk.
    + destruct k' as [|d k'].
      * left. exists x, "". rewrite Ha, Hsub, !sapp_nil_r. reflexivity.
      * exfalso. apply Hfree. simpl in Hcb. injection Hcb as Hd _.
        exists k, k'. now rewrite Hsub, Hd.
  - destruct k as [|d k].
    + simpl in Hv. destruct sub as [|e sub].
      * left. exists a, "". now rewrite sapp_nil_r.
      * exfalso. apply Hfree. simpl in Hv. injection Hv as He _.
        exists "", sub. now rewrite He.
    + right. simpl in Hv. injection Hv as _ Hb. now exists k, y.
Qed.

Lemma occurs_in_join (c : ascii) (sub : string) (xs : list string) :
  sub <> "" -> ~ Occurs (String c "") sub ->
  Occurs sub (join (String c "") xs) -> Exists (Occurs sub) xs.
Proof.
  intros Hne Hfree. induction xs as [|x [|y r] IH]; intros H.
  - exfalso. destruct H as (a & b & E). simpl in E.
    destruct a; [destruct sub; [congruence | discriminate E]
                | discriminate E].
  - constructor. exact H.
  - rewrite join_cons2 in H. simpl in H.
    destruct (occurs_across_char c sub x _ Hfree H) as [Hx|Hr].
    + now constructor.
    + apply Exists_cons_tl. now apply IH.
Qed.

End JoinFacts.

(** ** What cleaning an artifact never does *)

Section CleaningInvariants.
Import PyStr Spec Subtitles.

Lemma free_of_spec (c : ascii) (s : string) :
  free_of c s = true <-> ~ Occurs (String c "") s.
Proof.
  unfold free_of. induction s as [|d s IH]; simpl.
  - split; [intros _; apply occurs_char_nil | reflexivity].
  - destruct (Ascii.eqb_spec d c) as [->|Hne]; simpl.
    + split; [discriminate|]. intros H. exfalso. apply H.
      apply (occurs_char_here c "" s).
    + rewrite IH. split.
      * intros H H'. apply occurs_char_cons in H'. destruct H'; auto.
      * intros H H'. apply H. now apply occurs_char_tail.
Qed.

Lemma kept_lines_clean (keep : string -> bool) (content sub : string) :
  sub <> "" -> free_of " " sub = true ->
  (forall l, In l (split LF content) -> keep l = true -> ~ Occurs sub l) ->
  ~ Occurs sub (join " " (filter keep (split LF content))).
Proof.
  intros Hne Hfree Hk H.
  apply (occurs_in_join " " sub _ Hne) in H;
    [|now apply free_of_spec].
  apply Exists_exists in H. destruct H as (l & Hin & Hocc).
  apply filter_In in Hin. destruct Hin as [Hin Hkeep].
  exact (Hk l Hin Hkeep Hocc).
Qed.

Lemma split_line_no_lf (content l : string) :
  In l (split LF content) -> ~ Occurs (String LF "") l.
Proof.
  intros Hin. pose proof (split_no_sep LF content) as F.
  rewrite Forall_forall in F. now apply F.
Qed.

(** The cleaned text of a subtitle artifact never contains a timing
    arrow and never contains a line feed: it is a single line. *)
Theorem clean_text_has_no_arrow_and_no_line_feed :
  forall content,
    ~ Occurs "-->" (clean_vtt content)
    /\ ~ Occurs (String LF "") (clean_vtt content)
    /\ ~ Occurs "-->" (clean_srt content)
    /\ ~ Occurs (String LF "") (clean_srt content).
Proof.
  intros content. unfold clean_vtt, clean_srt.
  assert (Hlf : forall keep,
    ~ Occurs (String LF "")
        (join " " (filter keep (split LF content)))).
  { intros keep. apply kept_lines_clean; [discriminate | reflexivity |].
    intros l Hin _. now apply (split_line_no_lf content). }
  split; [|split; [apply Hlf|split; [|apply Hlf]]];
    (apply kept_lines_clean; [discriminate | reflexivity |]);
    intros l Hin Hkeep Hocc; apply contains_spec in Hocc.
  - unfold keep_vtt_line in Hkeep. rewrite Hocc in Hkeep.
    rewrite !andb_false_r in Hkeep. simpl in Hkeep. discriminate.
  - unfold keep_srt_line in Hkeep. rewrite Hocc in Hkeep.
    rewrite !andb_false_r in Hkeep. discriminate.
Qed.

(** Cleaning never lengthens: the cleaned text has at most as many
    characters as the artifact. *)
Theorem clean_text_not_longer_than_artifact :
  forall content,
    len (clean_vtt content) <= len content
    /\ len (clean_srt content) <= len content.
Proof.
  intros content.
  assert (H : forall keep,
    len (join " " (filter keep (split LF content))) <= len content).
  { intros keep. rewrite <- (join_split LF content) at 2.
    rewrite !join_len.
    destruct (filter_total_len keep (split LF content)) as [H1 H2].
    change (len " ") with 1. change (len (String LF "")) with 1. lia. }
  split; apply H.
Qed.

End CleaningInvariants.

(** ** The transcript scripts *)

Section TranscriptInvariants.
Import PyStr Spec Transcripts Fixtures.

(** The length check of Strategy 2 counts the joining spaces: the text is
    long enough exactly when the entries' characters plus one space
    between neighbours exceed 500; so a track of 502 entries passes
    whatever the entries hold, even if all are empty. *)
Theorem length_check_counts_separators :
  forall data : list string,
    (long_enough (join " " data) = true
     <-> 500 < total_len data + (List.length data - 1))
    /\ (502 <= List.length data -> long_enough (join " " data) = true).
Proof.
  intros data.
  assert (E : len (join " " data)
              = total_len data + (List.length data - 1))
    by (rewrite join_len; change (len " ") with 1; lia).
  unfold long_enough. rewrite E. split.
  - apply Nat.ltb_lt.
  - intros H. apply Nat.ltb_lt. lia.
Qed.

Lemma slice_to_prefix (n : nat) (t : string) :
  exists rest,
    t = slice_to n t ++ rest /\ len (slice_to n t) = Nat.min n (len t).
Proof.
  unfold slice_to, len. revert n.
  induction t as [|c t IH]; intros [|n]; simpl.
  - now exists "".
  - now exists "".
  - now exists (String c t).
  - destruct (IH n) as (rest & Ht & Hl). exists rest.
    split; [now rewrite <- Ht | now rewrite Hl].
Qed.

Lemma slice_to_app (a x : string) :
  forall n, n <= len a -> slice_to n (a ++ x) = slice_to n a.
Proof.
  unfold slice_to, len.
  induction a as [|c a IH]; intros [|n] H; simpl in *; try lia.
  - now destruct x.
  - reflexivity.
  - f_equal. apply IH. lia.
Qed.

(** The validation of [test-youtube-real.py] looks for the footer marker
    in the first 1000 characters only: a text whose first 1000 characters
    are free of it is judged likely valid even though the marker follows,
    while the line above reports that the footer pattern is present. *)
Theorem late_footer_is_reported_but_not_rejected :
  forall a b : string,
    1000 <= len a ->
    ~ Occurs "[Sobre]" (slice_to 1000 a) ->
    has_footer_pattern (a ++ "[Sobre]" ++ b) = true
    /\ likely_valid (a ++ "[Sobre]" ++ b) = true.
Proof.
  intros a b Hlen Hfree. split.
  - apply contains_spec. now exists a, b.
  - unfold likely_valid. rewrite (slice_to_app a _ 1000 Hlen).
    apply andb_true_iff. split.
    + apply Nat.ltb_lt. rewrite !len_sapp. simpl. lia.
    + apply negb_true_iff.
      destruct (contains "[Sobre]" (slice_to 1000 a)) eqn:E;
        [|reflexivity].
      exfalso. apply Hfree. now apply contains_spec.
Qed.

Lemma late_footer_witness :
  1000 <= len long_text
  /\ has_footer_pattern (long_text ++ "[Sobre]" ++ "") = true
  /\ likely_valid (long_text ++ "[Sobre]" ++ "") = true.
Proof.
  assert (Hlen : 1000 <= len long_text) by (vm_compute; lia).
  assert (Hfree : ~ Occurs "[Sobre]" (slice_to 1000 long_text)).
  { intros H. apply contains_spec in H. vm_compute in H. discriminate H. }
  split; [exact Hlen|].
  exact (late_footer_is_reported_but_not_rejected long_text "" Hlen Hfree).
Defined.

Lemma replace_char_free (a b : ascii) (s : string) :
  a <> b -> free_of a (replace_char a b s) = true.
Proof.
  intros Hne. unfold free_of.
  induction s as [|c s IH]; simpl; [reflexivity|].
  rewrite IH, andb_true_r.
  destruct (Ascii.eqb_spec c a) as [->|Hc]; apply negb_true_iff.
  - apply Ascii.eqb_neq. congruence.
  - now apply Ascii.eqb_neq.
Qed.

Lemma replace_char_absent (a b : ascii) (s : string) :
  free_of a s = true -> replace_char a b s = s.
Proof.
  unfold free_of. induction s as [|c s IH]; simpl; [reflexivity|].
  intros H. apply andb_true_iff in H. destruct H as [Hc Hs].
  apply negb_true_iff in Hc. rewrite Hc. now rewrite IH.
Qed.

(** The file the debug script writes for a strategy has no space in its
    name, whatever the strategy is called, and for a name without spaces
    it is [transcript-<name>.txt]. *)
Theorem debug_file_name_has_no_space :
  forall strategy_name : string,
    ~ Occurs " " (debug_file strategy_name)
    /\ len (debug_file strategy_name) = len strategy_name + 15
    /\ (~ Occurs " " strategy_name ->
        debug_file strategy_name = "transcript-" ++ strategy_name ++ ".txt").
Proof.
  intros name. unfold debug_file. split; [|split].
  - apply free_of_spec. unfold free_of.
    rewrite !all_chars_app.
    fold (free_of " " (replace_char " " "-" name)).
    rewrite replace_char_free by discriminate. reflexivity.
  - rewrite !len_sapp.
    assert (E : forall s, len (replace_char " " "-" s) = len s)
      by (induction s as [|c s IH]; simpl; [reflexivity | now f_equal]).
    rewrite E. simpl. lia.
  - intros H. apply free_of_spec in H.
    now rewrite (replace_char_absent " " "-" name H).
Qed.

(** Strategy 2 pauses one second before every fetch and at no other
    time: the sleeps it performs are all of one second and are as many as
    the fetches it makes, at most one per track. *)
Theorem strategy2_pauses_once_per_fetch :
  forall write_text ts w,
    exists n,
      n <= List.length ts
      /\ slept (strategy2_loop write_text ts w)
         = (slept w ++ repeat 1 n)%list
      /\ List.length (invoked (strategy2_loop write_text ts w))
         = List.length (invoked w) + n.
Proof.
  intros write_text ts w.
  destruct (strategy2_loop_steps write_text ts w)
    as (tried & rest & -> & _ & Hs & Hi).
  exists (List.length tried). rewrite Hs, Hi, !length_app, length_map.
  repeat split. lia.
Qed.



End TranscriptInvariants.

(** ** Splitting on a separator and the video id *)

Section VideoIdFacts.
Import PyStr Spec YtDlp Fixtures.

Lemma split_from_cons (sep : string) (c : ascii) (s : string) :
  split_from sep 0 (String c s)
  = if String.prefix sep (String c s)
    then "" :: split_from sep (String.length sep - 1) s
    else match split_from sep 0 s with
         | [] => [String c ""]
         | l :: ls => String c l :: ls
         end.
Proof. reflexivity. Qed.

Lemma split_from_not_nil (sep : string) (s : string) :
  forall skip, split_from sep skip s <> [].
Proof.
  induction s as [|c s IH]; intros skip; [discriminate|].
  destruct skip as [|k]; [|apply (IH k)].
  rewrite split_from_cons.
  destruct (String.prefix sep (String c s)); [discriminate|].
  destruct (split_from sep 0 s); discriminate.
Qed.

Lemma split_from_skip (sep p t : string) :
  split_from sep (String.length p) (p ++ t) = split_from sep 0 t.
Proof. induction p as [|c p IH]; simpl; [reflexivity | exact IH]. Qed.

(** At a separator, a new field starts after it. *)
Lemma split_str_at_sep (sep t : string) :
  sep <> "" -> split_str sep (sep ++ t) = "" :: split_str sep t.
Proof.
  intros Hne. unfold split_str. destruct sep as [|c sep]; [congruence|].
  simpl append. rewrite split_from_cons.
  assert (E : String.prefix (String c sep) (String c (sep ++ t)) = true)
    by (apply prefix_spec; now exists t).
  rewrite E. f_equal.
  replace (String.length (String c sep) - 1) with (String.length sep)
    by (simpl; lia).
  apply split_from_skip.
Qed.

(** Elsewhere, the character joins the current field. *)
Lemma split_str_no_sep (sep : string) (c : ascii) (s : string) :
  String.prefix sep (String c s) = false ->
  exists l ls,
    split_str sep s = l :: ls
    /\ split_str sep (String c s) = String c l :: ls.
Proof.
  intros E. unfold split_str. rewrite split_from_cons, E.
  pose proof (split_from_not_nil sep s 0) as Hn.
  destruct (split_from sep 0 s) as [|l ls]; [congruence|].
  now exists l, ls.
Qed.

Lemma join_cons_char (sep : string) (c : ascii) (l : string)
  (ls : list string) :
  join sep (String c l :: ls) = String c (join sep (l :: ls)).
Proof. destruct ls; reflexivity. Qed.

(** [sep.join(s.split(sep)) == s] *)
Lemma join_split_str (sep : string) :
  sep <> "" -> forall s, join sep (split_str sep s) = s.
Proof.
  intros Hne s.
  remember (String.length s) as n eqn:Hn.
  revert s Hn. induction n as [n IH] using lt_wf_ind. intros s Hn.
  destruct s as [|c s]; [reflexivity|].
  destruct (String.prefix sep (String c s)) eqn:E.
  - apply prefix_spec in E. destruct E as [t Ht]. rewrite Ht.
    rewrite (split_str_at_sep sep t Hne).
    pose proof (split_from_not_nil sep t 0) as Hnil.
    fold (split_str sep t) in Hnil.
    destruct (split_str sep t) as [|l ls] eqn:Es; [congruence|].
    rewrite join_cons2, <- Es. simpl append at 1.
    rewrite (IH (String.length t)); [reflexivity| |reflexivity].
    rewrite Hn, Ht. fold (len (sep ++ t)). rewrite len_sapp. unfold len.
    destruct sep; [congruence | simpl; lia].
  - destruct (split_str_no_sep sep c s E) as (l & ls & Hs & Hcs).
    rewrite Hcs, join_cons_char, <- Hs.
    rewrite (IH (String.length s)); [reflexivity| |reflexivity].
    rewrite Hn. simpl. lia.
Qed.

Lemma occurs_tail (sub : string) (c : ascii) (s : string) :
  Occurs sub s -> Occurs sub (String c s).
Proof. intros (a & b & ->). now exists (String c a), b. Qed.

(** A text without the separator is a single field. *)
Lemma split_str_absent (sep s : string) :
  ~ Occurs sep s -> split_str sep s = [s].
Proof.
  induction s as [|c s IH]; intros H; [reflexivity|].
  destruct (String.prefix sep (String c s)) eqn:E.
  - exfalso. apply H. apply prefix_spec in E. destruct E as [t Ht].
    exists "", t. exact Ht.
  - destruct (split_str_no_sep sep c s E) as (l & ls & Hs & Hcs).
    rewrite Hcs. rewrite IH in Hs by (intros H'; apply H; now apply occurs_tail).
    now injection Hs as <- <-.
Qed.

(** The first [v=] ends the first field. *)
Lemma split_str_first_v (a t : string) :
  ~ Occurs "v=" a ->
  split_str "v=" (a ++ "v=" ++ t) = a :: split_str "v=" t.
Proof.
  induction a as [|c a IH]; intros H.
  - apply (split_str_at_sep "v=" t). discriminate.
  - assert (E : String.prefix "v=" (String c (a ++ "v=" ++ t)) = false).
    { destruct (String.prefix "v=" (String c (a ++ "v=" ++ t))) eqn:E;
        [|reflexivity].
      exfalso. apply prefix_spec in E. destruct E as [u Hu].
      simpl in Hu. injection Hu as Hc Hu.
      destruct a as [|d a]; simpl in Hu; [discriminate Hu|].
      injection Hu as Hd _. apply H. exists "", a. simpl. congruence. }
    change (String c a ++ "v=" ++ t) with (String c (a ++ "v=" ++ t)).
    destruct (split_str_no_sep "v=" c _ E) as (l & ls & Hs & Hcs).
    rewrite Hcs. rewrite IH in Hs by (intros H'; apply H; now apply occurs_tail).
    now injection Hs as <- <-.
Qed.

(** The video id is the text between the first [v=] of the URL and the
    next [v=], or the end of the URL: query parameters that follow stay
    in the id, a later parameter whose name ends in [v] cuts it; a URL
    without [v=], such as a short link, has the id [unknown]. *)
Theorem video_id_is_between_first_two_v :
  forall a b c : string,
    ~ Occurs "v=" a -> ~ Occurs "v=" b ->
    video_id_of (a ++ "v=" ++ b) = b
    /\ video_id_of (a ++ "v=" ++ b ++ "v=" ++ c) = b
    /\ video_id_of a = "unknown".
Proof.
  intros a b c Ha Hb. unfold video_id_of. split; [|split].
  - assert (E : contains "v=" (a ++ "v=" ++ b) = true)
      by (apply contains_spec; now exists a, b).
    rewrite E, (split_str_first_v a b Ha), (split_str_absent "v=" b Hb).
    reflexivity.
  - assert (E : contains "v=" (a ++ "v=" ++ b ++ "v=" ++ c) = true)
      by (apply contains_spec; now exists a, (b ++ "v=" ++ c)).
    rewrite E, (split_str_first_v a (b ++ "v=" ++ c) Ha),
      (split_str_first_v b c Hb).
    reflexivity.
  - destruct (contains "v=" a) eqn:E; [|reflexivity].
    exfalso. apply Ha. now apply contains_spec.
Qed.

Lemma video_id_witness :
  video_id_of (timed_url_prefix ++ "v=" ++ timed_url_rest)
  = "dQw4w9WgXcQ&t=42s"
  /\ video_id_of (timed_url_prefix ++ "v=" ++ timed_url_rest ++ "v=" ++ "1")
     = "dQw4w9WgXcQ&t=42s"
  /\ video_id_of timed_url_prefix = "unknown".
Proof.
  apply (video_id_is_between_first_two_v timed_url_prefix timed_url_rest
           "1");
    intros H; apply contains_spec in H; vm_compute in H; discriminate H.
Defined.

(** The index [1] into the split is always in range: when [v=] occurs in
    the URL the split has at least two fields, and joining the fields
    with [v=] gives the URL back. *)
Theorem video_id_index_in_range :
  forall video_url : string,
    join "v=" (split_str "v=" video_url) = video_url
    /\ (contains "v=" video_url = true ->
        2 <= List.length (split_str "v=" video_url)).
Proof.
  intros url. split; [apply join_split_str; discriminate|].
  intros H.
  pose proof (split_from_not_nil "v=" url 0) as Hn.
  fold (split_str "v=" url) in Hn.
  destruct (split_str "v=" url) as [|x [|y r]] eqn:E;
    [congruence | | simpl; lia].
  exfalso.
  assert (Hj : join "v=" (split_str "v=" url) = url)
    by (apply join_split_str; discriminate).
  rewrite E in Hj. simpl in Hj. subst x.
  (* a single field has no separator in it *)
  revert E H. clear Hn.
  induction url as [|c url IH]; intros E H.
  - vm_compute in H. discriminate H.
  - rewrite contains_cons in H.
    destruct (String.prefix "v=" (String c url)) eqn:P.
    + apply prefix_spec in P. destruct P as [t Ht]. rewrite Ht in E.
      rewrite (split_str_at_sep "v=" t) in E by discriminate.
      pose proof (split_from_not_nil "v=" t 0) as Hn.
      fold (split_str "v=" t) in Hn.
      destruct (split_str "v=" t); [congruence | discriminate E].
    + destruct (split_str_no_sep "v=" c url P) as (l & ls & Hs & Hcs).
      rewrite Hcs in E. injection E as El Els. subst ls.
      apply IH; [|exact H]. rewrite Hs. now rewrite El.
Qed.

End VideoIdFacts.

(** ** The yt-dlp strategies and the summary of [main] *)

Section StrategyFacts.
Import PyStr Spec YtDlp Fixtures.

(** A result of [_run_command] is never both a success and rate
    limited: a success carries the cleaned text, its length and the file,
    and no error; a failure carries an error and no text; the rate-limit
    flag is set only on a failure of a run whose error output has the
    marker. *)
Theorem run_command_result_is_coherent :
  forall run glob cmd tag video_id,
    let r := _run_command run glob cmd tag video_id in
    strategy r = tag
    /\ (success r = true ->
        exists t path,
          text r = Some t /\ length r = Some (len t)
          /\ file r = Some path /\ error r = None
          /\ get_rate_limited r = false)
    /\ (success r = false ->
        text r = None /\ length r = None /\ exists msg, error r = Some msg)
    /\ (get_rate_limited r = true ->
        success r = false
        /\ exists proc,
             run cmd = inr proc /\ Occurs "429" (proc_stderr proc)).
Proof.
  intros run glob cmd tag video_id r. subst r. unfold _run_command.
  destruct (run cmd) as [e|proc];
    [|destruct (glob _) as [e|[|f fs]];
      [| |destruct (read_text f) as [e|content];
          [|destruct (st_size f) as [e|n]]]];
    unfold get_rate_limited, run_failed; simpl;
    (split; [reflexivity|]); (split; [|split]);
    first
      [ discriminate
      | intros _; repeat split; now eexists
      | intros _; do 2 eexists; now repeat split
      | intros H; split; [reflexivity|];
        exists proc; split; [reflexivity | now apply contains_spec] ].
Qed.

Lemma sapp_cancel (a x y : string) : a ++ x = a ++ y -> x = y.
Proof.
  induction a as [|c a IH]; simpl; intros E; [exact E|].
  injection E as E. now apply IH.
Qed.

(** The artifact name each strategy asks yt-dlp for and the one it then
    looks for.  For the basic, android and mediaconnect strategies both
    start with the same stem [<id>_<tag>.]; the web-client strategy asks
    for [<id>_web.<ext>] but looks for [<id>_web_client.*.vtt], and no
    file name starts with both stems. *)
Theorem web_client_looks_for_another_name :
  forall output_dir run glob video_url,
    let id := video_id_of video_url in
    (strategy_2_web_client output_dir run glob video_url
     = _run_command run glob (strategy_2_cmd output_dir video_url)
         "web_client" id
     /\ output_template (strategy_2_cmd output_dir video_url)
        = Some (output_dir ++ "/" ++ (id ++ "_web.") ++ "%(ext)s")
     /\ artifact_pattern "web_client" id
        = (id ++ "_web_client.") ++ "*.vtt"
     /\ forall x y, (id ++ "_web.") ++ x <> (id ++ "_web_client.") ++ y)
    /\ (output_template (strategy_1_cmd output_dir video_url)
        = Some (output_dir ++ "/" ++ (id ++ "_basic.") ++ "%(ext)s")
        /\ artifact_pattern "basic" id = (id ++ "_basic.") ++ "*.vtt")
    /\ (output_template (strategy_3_cmd output_dir video_url)
        = Some (output_dir ++ "/" ++ (id ++ "_android.") ++ "%(ext)s")
        /\ artifact_pattern "android" id = (id ++ "_android.") ++ "*.vtt")
    /\ (output_template (strategy_4_cmd output_dir video_url)
        = Some (output_dir ++ "/" ++ (id ++ "_mediaconnect.") ++ "%(ext)s")
        /\ artifact_pattern "mediaconnect" id
           = (id ++ "_mediaconnect.") ++ "*.vtt").
Proof.
  intros output_dir run glob url id.
  unfold artifact_pattern, strategy_1_cmd, strategy_2_cmd, strategy_3_cmd,
    strategy_4_cmd. fold id. simpl output_template.
  rewrite !sapp_assoc. simpl.
  repeat split.
  intros x y E. rewrite !sapp_assoc in E. apply sapp_cancel in E.
  simpl in E. discriminate E.
Qed.

(** Listing the subtitles succeeds exactly when the tool ran and its
    output has the words [Available subtitles]; its result is never
    flagged rate limited, whatever the error output holds. *)
Theorem list_subs_result :
  forall run video_url,
    let r := strategy_5_list_subs run video_url in
    get_rate_limited r = false
    /\ (success r = true <->
        exists proc,
          run ["yt-dlp"; "--list-subs"; video_url] = inr proc
          /\ Occurs "Available subtitles" (proc_stdout proc)).
Proof.
  intros run url r. subst r.
  unfold strategy_5_list_subs, strategy_5_cmd, get_rate_limited.
  destruct (run _) as [e|proc]; simpl; (split; [reflexivity|]).
  - split; [discriminate | intros (p & E & _); discriminate E].
  - rewrite contains_spec. split.
    + intros H. now exists proc.
    + intros (p & E & H). now injection E as ->.
Qed.

Lemma run_command_success_not_flagged :
  forall run glob cmd tag video_id,
    success (_run_command run glob cmd tag video_id) = true ->
    get_rate_limited (_run_command run glob cmd tag video_id) = false.
Proof.
  intros run glob cmd tag video_id. unfold _run_command, get_rate_limited.
  destruct (run cmd) as [e|proc]; [discriminate|].
  destruct (glob _) as [e|[|f fs]]; try discriminate.
  destruct (read_text f) as [e|content]; [discriminate|].
  destruct (st_size f) as [e|n]; [discriminate | reflexivity].
Qed.

Lemma list_subs_not_flagged :
  forall run video_url,
    get_rate_limited (strategy_5_list_subs run video_url) = false.
Proof.
  intros run url. unfold strategy_5_list_subs, get_rate_limited.
  now destruct (run _).
Qed.

Lemma filter_both_le {A : Type} (p q : A -> bool) (l : list A) :
  (forall x, In x l -> p x = true -> q x = false) ->
  List.length (filter p l) + List.length (filter q l) <= List.length l.
Proof.
  induction l as [|x l IH]; intros H; simpl; [lia|].
  assert (IH' := IH (fun y Hy => H y (or_intror Hy))).
  pose proof (H x (or_introl eq_refl)) as Hx.
  destruct (p x), (q x); simpl; try lia.
Qed.

(** The summary of [main]: the five strategies are run in order, each
    followed by a pause of two seconds; no result is counted both as a
    success and as rate limited, so the two counts add up to at most five,
    and at most four results can be counted as rate limited. *)
Theorem main_summary_counts :
  forall output_dir run glob,
    let st := main output_dir run glob in
    map fst (results st)
      = ["Basic"; "Web Client"; "Android"; "MediaConnect"; "List Subs"]
    /\ slept st = [2; 2; 2; 2; 2]
    /\ success_count (results st) + rate_limited_count (results st) <= 5
    /\ rate_limited_count (results st) <= 4.
Proof.
  intros output_dir run glob st. subst st. unfold main.
  destruct (main_loop_trace (strategies output_dir run glob) test_url
              main_init) as (Hs & Hr & _).
  rewrite Hs, Hr. simpl. repeat split.
  - unfold success_count, rate_limited_count.
    match goal with
    | |- ?a + ?b <= 5 =>
        match a with
        | List.length (filter ?p ?l) =>
            change 5 with (List.length l);
            apply (filter_both_le p _ l)
        end
    end.
    intros [name r] Hin Hsucc. simpl in *.
    destruct Hin as [E|[E|[E|[E|[E|[]]]]]]; injection E as _ <-;
      try (now apply run_command_success_not_flagged).
    apply list_subs_not_flagged.
  - unfold rate_limited_count. simpl.
    rewrite (list_subs_not_flagged run test_url).
    repeat match goal with
           | |- context [get_rate_limited ?r] =>
               destruct (get_rate_limited r)
           end; simpl; lia.
Qed.

End StrategyFacts.

(** ** The first extractor: [test_ytdlp_poc.py] *)

Section PocFacts.
Import PyStr Spec Server Poc Fixtures.

Lemma str_items_of_strings (l : list string) :
  forall i, str_items i (map JStr l) = inr l.
Proof.
  induction l as [|s l IH]; intros i; simpl; [reflexivity|].
  now rewrite IH.
Qed.

Lemma collect_segs_ok (segs : list json) :
  Forall seg_ok segs ->
  collect_segs segs = inr (map JStr (flat_map seg_text segs)).
Proof.
  induction 1 as [|seg segs (fields & -> & Hu) _ IH]; [reflexivity|].
  simpl. destruct Hu as [Hu|(s & Hu)]; rewrite Hu; simpl.
  - exact IH.
  - now rewrite IH.
Qed.

Lemma collect_events_ok (events : list json) :
  Forall event_ok events ->
  collect_events events = inr (map JStr (flat_map event_texts events)).
Proof.
  induction 1 as [|event events (fields & -> & Hs) _ IH]; [reflexivity|].
  simpl. destruct Hs as [Hs|(segs & Hs & Hsegs)]; rewrite Hs; simpl.
  - exact IH.
  - rewrite (collect_segs_ok segs Hsegs), IH. now rewrite map_app.
Qed.

(** On a json3 document of the expected shape the extracted text is the
    [utf8] strings of all segments of all events, in document order,
    joined by single spaces; events without [segs] and segments without
    [utf8] contribute nothing. *)
Theorem json3_text_of_well_formed_document :
  forall fields events,
    assoc "events" fields = Some (JArr events) ->
    Forall event_ok events ->
    json3_text (JObj fields)
    = inr (join " " (flat_map event_texts events)).
Proof.
  intros fields events He Hok. unfold json3_text. simpl.
  rewrite He. simpl.
  rewrite (collect_events_ok events Hok), str_items_of_strings.
  reflexivity.
Qed.

Lemma json3_text_witness :
  json3_text (JObj [("wireMagic", JStr "pb3");
                    ("events", JArr sample_events)])
  = inr "Never gonna".
Proof.
  refine (eq_trans
            (json3_text_of_well_formed_document
               [("wireMagic", JStr "pb3"); ("events", JArr sample_events)]
               sample_events eq_refl _)
            eq_refl).
  repeat constructor.
  - eexists. split; [reflexivity|]. now left.
  - eexists. split; [reflexivity|]. right. eexists. split; [reflexivity|].
    repeat constructor; eexists; (split; [reflexivity|]);
      first [now left | right; now eexists].
Defined.

(** A json3 artifact that exists and parses to an object without the key
    [events] is reported as a success with an empty text of length 0. *)
Theorem json_artifact_without_events_is_empty_success :
  forall output_path run file_exists read_text st_size json_loads
         video_url proc content fields,
    let output_file :=
      output_path (YtDlp.video_id_of video_url ++ "_json") in
    run (poc_cmd "json3" output_file video_url) = inr proc ->
    file_exists (output_file ++ ".en.json3") = true ->
    read_text (output_file ++ ".en.json3") = inr content ->
    json_loads content = inr (JObj fields) ->
    assoc "events" fields = None ->
    let r := extract_transcript_json output_path run file_exists read_text
               st_size json_loads video_url in
    success r = true /\ text r = Some "" /\ length r = Some 0
    /\ error r = None.
Proof.
  intros output_path run file_exists read_text st_size json_loads
    url proc content fields output_file Hrun Hex Hread Hparse Hev r.
  subst r output_file. unfold extract_transcript_json.
  rewrite Hrun, Hex, Hread, Hparse. unfold json3_text. simpl.
  rewrite Hev. simpl. now repeat split.
Qed.

Lemma json_artifact_without_events_witness :
  let r := extract_transcript_json (fun name => "/tmp/ytdlp_test/" ++ name)
             quiet_run (fun _ => true) (fun _ => inr "{}") (fun _ => 2)
             parses_to_empty_object short_url in
  success r = true /\ text r = Some "" /\ length r = Some 0
  /\ error r = None.
Proof.
  exact (json_artifact_without_events_is_empty_success
           (fun name => "/tmp/ytdlp_test/" ++ name)
           quiet_run (fun _ => true) (fun _ => inr "{}") (fun _ => 2)
           parses_to_empty_object short_url _ _ _
           eq_refl eq_refl eq_refl eq_refl eq_refl).
Defined.


End PocFacts.

(** ** The two conversion endpoints, case by case *)

Section EndpointFacts.
Import PyStr Spec Server Fixtures.

Lemma convert_cases (convert_stream : list Byte.byte -> outcome ConversionResult)
  (request : ConvertRequest) :
  (~ supplies_file request
   /\ convert_to_markdown convert_stream request = (no_file_response, []))
  \/ (supplies_file request
      /\ exists e,
           convert_stream (uploaded_bytes request) = inl e
           /\ convert_to_markdown convert_stream request
              = (conversion_failed e, [uploaded_bytes request]))
  \/ (supplies_file request
      /\ exists filename result,
           uploaded request = Some (filename, uploaded_bytes request)
           /\ convert_stream (uploaded_bytes request) = inr result
           /\ convert_to_markdown convert_stream request
              = ((markdown_body
                    [("filename", JStr filename);
                     ("size_bytes",
                      int_of_len (List.length (uploaded_bytes request)))]
                    result, 200),
                 [uploaded_bytes request])).
Proof.
  destruct (uploaded request) as [[filename bytes]|] eqn:U.
  - assert (Hs : supplies_file request).
    { unfold supplies_file. unfold uploaded in U.
      destruct (assoc "file" (req_files request)) as [f|];
        [left; now exists f|].
      destruct (req_data request); [discriminate U | right; discriminate]. }
    destruct (uploaded_some request Hs) as [filename' U'].
    rewrite U in U'. injection U' as -> Hb.
    unfold convert_to_markdown, try_except, bind, invoke, ret.
    rewrite U, Hb. simpl.
    destruct (convert_stream (uploaded_bytes request)) as [e|result] eqn:C.
    + right. left. split; [exact Hs|]. now exists e.
    + right. right. split; [exact Hs|]. now exists filename', result.
  - left. split.
    + intros Hs. destruct (uploaded_some request Hs) as [f Hf]. congruence.
    + unfold convert_to_markdown, try_except, ret. now rewrite U.
Qed.

Lemma getitem_url_object (data url : json) :
  py_getitem data "url" = inr url <->
  exists fields, data = JObj fields /\ assoc "url" fields = Some url.
Proof.
  split.
  - destruct data as [| | | | |fields]; simpl; try discriminate.
    destruct (assoc "url" fields) as [v|] eqn:A; [|discriminate].
    intros E. injection E as ->. now exists fields.
  - intros (fields & -> & A). simpl. now rewrite A.
Qed.

Lemma convert_url_cases (convert : json -> outcome ConversionResult)
  (request : UrlRequest) :
  (exists fields url,
      get_json request = inr (JObj fields)
      /\ assoc "url" fields = Some url
      /\ ((exists e,
              convert url = inl e
              /\ convert_url_to_markdown convert request
                 = (url_conversion_failed e, [url]))
          \/ (exists result,
                 convert url = inr result
                 /\ convert_url_to_markdown convert request
                    = ((markdown_body [("url", url)] result, 200), [url]))))
  \/ ((~ exists fields url,
          get_json request = inr (JObj fields)
          /\ assoc "url" fields = Some url)
      /\ (convert_url_to_markdown convert request = (no_url_response, [])
          \/ exists e,
               convert_url_to_markdown convert request
               = (url_conversion_failed e, []))).
Proof.
  destruct request as [[e|data]].
  - right. split; [intros (f & u & E & _); discriminate E|].
    right. now exists e.
  - unfold convert_url_to_markdown, try_except, bind, lift, ret, invoke.
    simpl get_json.
    destruct data as [|b|n|s|items|fields].
    + right. split; [intros (f & u & E & _); discriminate E | now left].
    + right. split; [intros (f & u & E & _); discriminate E|].
      destruct b; simpl; [right; now eexists | now left].
    + right. split; [intros (f & u & E & _); discriminate E|].
      simpl. destruct (Z.eqb n 0); simpl; [now left | right; now eexists].
    + right. split; [intros (f & u & E & _); discriminate E|].
      simpl. destruct (is_empty s); simpl; [now left|].
      destruct (contains "url" s); simpl; [right; now eexists | now left].
    + right. split; [intros (f & u & E & _); discriminate E|].
      simpl. destruct items as [|i items]; [now left|].
      destruct (existsb (is_str "url") (i :: items)); simpl;
        [right; now eexists | now left].
    + destruct (assoc "url" fields) as [url|] eqn:A.
      * left. exists fields, url. split; [reflexivity|]. split; [exact A|].
        destruct fields as [|kv rest]; [discriminate A|].
        simpl truthy. simpl negb. cbv iota. unfold py_in, py_getitem.
        rewrite A. simpl.
        destruct (convert url) as [e|result] eqn:C; simpl.
        -- left. now exists e.
        -- right. now exists result.
      * right. split.
        -- intros (f & u & E & A'). injection E as <-. congruence.
        -- left. destruct fields as [|kv rest]; [reflexivity|].
           simpl truthy. simpl negb. cbv iota. unfold py_in.
           now rewrite A.
Qed.

Lemma markdown_body_coherent (origin : list (string * json))
  (result : ConversionResult) :
  assoc "markdown_length" origin = None ->
  assoc "title" origin = None ->
  coherent_success (markdown_body origin result).
Proof.
  intros Hm Ht. unfold coherent_success, markdown_body.
  eexists _, _. simpl. repeat split.
  assert (Hn : assoc "title"
                 (origin ++ [("markdown_length",
                              int_of_len (len (markdown_of result)))])%list
               = None)
    by (rewrite assoc_snoc, Ht; reflexivity).
  destruct (with_title_keys result _ Hn) as [_ Hk].
  rewrite Hk by discriminate. rewrite assoc_snoc, Hm. reflexivity.
Qed.

(** [POST /convert] answers 200, 400 or 500 and calls the converter at
    most once: 400 exactly when no file is supplied (and then the
    converter is not called), 200 exactly when a file is supplied and its
    conversion returns. *)
Theorem convert_status_is_decided_by_upload_and_conversion :
  forall convert_stream request,
    let response := fst (convert_to_markdown convert_stream request) in
    let calls := snd (convert_to_markdown convert_stream request) in
    (status_code response = 200 \/ status_code response = 400
     \/ status_code response = 500)
    /\ (status_code response = 400 <-> ~ supplies_file request)
    /\ (status_code response = 200 <->
        supplies_file request
        /\ exists result,
             convert_stream (uploaded_bytes request) = inr result)
    /\ (calls = [] <-> ~ supplies_file request)
    /\ List.length calls <= 1.
Proof.
  intros cs request response calls. subst response calls.
  destruct (convert_cases cs request)
    as [(Hn & E) | [(Hs & e & He & E) | (Hs & fn & r & _ & Hr & E)]];
    rewrite E; simpl;
    (split; [auto|]); (split; [|split; [|split; [|lia]]]).
  - split; [intros _; exact Hn | reflexivity].
  - split; [discriminate | intros [Hs' _]; contradiction].
  - split; [intros _; exact Hn | reflexivity].
  - split; [discriminate | intros Hn; contradiction].
  - split; [discriminate | intros [_ (r & Hr)]; congruence].
  - split; [discriminate | intros Hn; contradiction].
  - split; [discriminate | intros Hn; contradiction].
  - split; [intros _; split; [exact Hs | now exists r] | reflexivity].
  - split; [discriminate | intros Hn; contradiction].
Qed.

(** [POST /convert/url] calls the converter exactly when the body is a
    JSON object with the key [url], once and on the value of that key,
    whatever that value is; any other body is answered 400 or 500 without
    a conversion. *)
Theorem convert_url_converts_only_object_with_url :
  forall convert request,
    let response := fst (convert_url_to_markdown convert request) in
    let calls := snd (convert_url_to_markdown convert request) in
    (forall fields url,
        get_json request = inr (JObj fields) ->
        assoc "url" fields = Some url ->
        calls = [url]
        /\ (status_code response = 200 <->
            exists result, convert url = inr result)
        /\ (status_code response = 500 <-> exists e, convert url = inl e))
    /\ ((~ exists fields url,
            get_json request = inr (JObj fields)
            /\ assoc "url" fields = Some url) ->
        calls = []
        /\ (status_code response = 400 \/ status_code response = 500)).
Proof.
  intros convert request response calls. subst response calls.
  destruct (convert_url_cases convert request)
    as [(fields & url & Hj & Hu & Hc) | (Hn & Hc)].
  - split.
    + intros fields' url' Hj' Hu'.
      rewrite Hj in Hj'. injection Hj' as <-.
      rewrite Hu in Hu'. injection Hu' as <-.
      destruct Hc as [(e & He & E)|(r & Hr & E)]; rewrite E; simpl;
        repeat split; try discriminate; try (intros [x Hx]; congruence).
      * intros _. now exists e.
      * intros _. now exists r.
    + intros H. exfalso. apply H. now exists fields, url.
  - split.
    + intros fields url Hj Hu. exfalso. apply Hn. now exists fields, url.
    + intros _. destruct Hc as [E|(e & E)]; rewrite E; simpl; auto.
Qed.

(** Whatever the request, a 200 answer of either endpoint holds a
    markdown string, a metadata object whose [markdown_length] is the
    length of that string, and no [error]; every other answer holds an
    [error] and a [message] and no [markdown]. *)
Theorem answers_are_coherent :
  (forall convert_stream request,
      let response := fst (convert_to_markdown convert_stream request) in
      (status_code response = 200 -> coherent_success (body response))
      /\ (status_code response <> 200 -> coherent_error (body response)))
  /\ (forall convert request,
         let response := fst (convert_url_to_markdown convert request) in
         (status_code response = 200 -> coherent_success (body response))
         /\ (status_code response <> 200 -> coherent_error (body response))).
Proof.
  assert (Herr : forall e,
    coherent_error (body (conversion_failed e))
    /\ coherent_error (body (url_conversion_failed e))).
  { intros e. split; (split; [now eexists _, _ | reflexivity]). }
  assert (H400 : coherent_error (body no_file_response)
                 /\ coherent_error (body no_url_response)).
  { split; (split; [now eexists _, _ | reflexivity]). }
  split.
  - intros cs request response. subst response.
    destruct (convert_cases cs request)
      as [(Hn & E) | [(Hs & e & He & E) | (Hs & fn & r & _ & Hr & E)]];
      rewrite E; simpl; split; try discriminate; try congruence.
    + intros _. apply H400.
    + intros _. apply (Herr e).
    + intros _. now apply markdown_body_coherent.
  - intros convert request response. subst response.
    destruct (convert_url_cases convert request)
      as [(fields & url & Hj & Hu & [(e & He & E)|(r & Hr & E)])
         | (Hn & [E|(e & E)])];
      rewrite E; simpl; split; try discriminate; try congruence.
    + intros _. apply (Herr e).
    + intros _. now apply markdown_body_coherent.
    + intros _. apply H400.
    + intros _. apply (Herr e).
Qed.

(** A successful [POST /convert/url] answers 200 with the converted text
    (the [text_content] of the converter's result, or [str(result)] when
    the result has none) and a metadata object holding the [url] as it
    was sent, the [markdown_length] and a [title] exactly when the
    conversion reports one. *)
Theorem convert_url_success_response :
  forall convert fields url result,
    assoc "url" fields = Some url ->
    convert url = inr result ->
    let response :=
      fst (convert_url_to_markdown convert (mkUrlReq (inr (JObj fields)))) in
    status_code response = 200
    /\ (forall t, text_content result = Some t ->
          field "markdown" (body response) = Some (JStr t))
    /\ (text_content result = None ->
          field "markdown" (body response) = Some (JStr (str_of result)))
    /\ exists md metadata,
         field "markdown" (body response) = Some (JStr md)
         /\ field "metadata" (body response) = Some (JObj metadata)
         /\ assoc "url" metadata = Some url
         /\ assoc "markdown_length" metadata
            = Some (JNum (Z.of_nat (len md)))
         /\ assoc "title" metadata = option_map JStr (reported_title result).
Proof.
  intros convert fields url result Hu Hc response. subst response.
  destruct (convert_url_cases convert (mkUrlReq (inr (JObj fields))))
    as [(fields' & url' & Hj & Hu' & Hcase) | (Hn & _)].
  - simpl in Hj. injection Hj as <-. rewrite Hu in Hu'. injection Hu' as <-.
    destruct Hcase as [(e & He & _)|(r & Hr & E)]; [congruence|].
    rewrite Hc in Hr. injection Hr as <-. rewrite E. simpl.
    split; [reflexivity|]. split; [|split].
    + intros t Ht. unfold markdown_of. now rewrite Ht.
    + intros Hnone. unfold markdown_of. now rewrite Hnone.
    + set (m := [("url", url);
                 ("markdown_length", int_of_len (len (markdown_of result)))]).
      destruct (with_title_keys result m eq_refl) as [Ht Hk].
      exists (markdown_of result), (with_title result m).
      split; [reflexivity|]. split; [reflexivity|].
      rewrite !Hk by discriminate. now rewrite Ht.
  - exfalso. apply Hn. now exists fields, url.
Qed.

Lemma convert_url_success_witness :
  status_code
    (fst (convert_url_to_markdown fake_convert example_url_request))
  = 200
  /\ field "markdown"
       (body (fst (convert_url_to_markdown fake_convert example_url_request)))
     = Some (JStr "Converted markdown for https://example.com").
Proof.
  pose proof (convert_url_success_response fake_convert
                [("url", JStr "https://example.com")]
                (JStr "https://example.com") _ eq_refl eq_refl)
    as (H200 & Htext & _).
  split; [exact H200 | exact (Htext _ eq_refl)].
Defined.

(** For a multipart upload the raw body and the [X-Filename] header are
    ignored: the bytes converted and counted are those of the [file]
    field, and the [filename] in the metadata is the field's file name,
    or [document] when that is missing or empty; it is never empty. *)
Theorem multipart_upload_wins_and_is_named :
  forall convert_stream request f result,
    assoc "file" (req_files request) = Some f ->
    convert_stream (read f) = inr result ->
    let response := fst (convert_to_markdown convert_stream request) in
    let calls := snd (convert_to_markdown convert_stream request) in
    calls = [read f]
    /\ exists metadata name,
         field "metadata" (body response) = Some (JObj metadata)
         /\ assoc "filename" metadata = Some (JStr name)
         /\ name <> ""
         /\ (forall n, filename f = Some n -> n <> "" -> name = n)
         /\ (filename f = None \/ filename f = Some "" -> name = "document")
         /\ assoc "size_bytes" metadata
            = Some (JNum (Z.of_nat (List.length (read f)))).
Proof.
  intros cs request f result Hf Hc response calls. subst response calls.
  unfold convert_to_markdown, try_except, bind, invoke, ret, uploaded.
  rewrite Hf. simpl. rewrite Hc. simpl. split; [reflexivity|].
  set (m := [("filename", JStr (filename_or_document f));
             ("size_bytes", int_of_len (List.length (read f)));
             ("markdown_length", int_of_len (len (markdown_of result)))]).
  destruct (with_title_keys result m eq_refl) as [_ Hk].
  exists (with_title result m), (filename_or_document f).
  split; [reflexivity|]. rewrite !Hk by discriminate.
  split; [reflexivity|].
  unfold filename_or_document.
  destruct (filename f) as [[|c n]|]; simpl; repeat split;
    try discriminate; try reflexivity;
    first [ intros n' E Hne; injection E as <-; congruence
          | intros [E|E]; discriminate E ].
Qed.

Lemma multipart_upload_witness :
  let request :=
    mkConvertReq [("file", mkFile (Some "") [Byte.x25; Byte.x50])]
      [Byte.x00] [("X-Filename", "ignored.pdf")] in
  snd (convert_to_markdown converts_to_hello request)
  = [[Byte.x25; Byte.x50]].
Proof.
  exact (proj1 (multipart_upload_wins_and_is_named converts_to_hello
                  (mkConvertReq
                     [("file", mkFile (Some "") [Byte.x25; Byte.x50])]
                     [Byte.x00] [("X-Filename", "ignored.pdf")])
                  _ _ eq_refl eq_refl)).
Defined.

End EndpointFacts.

(** ** CORS origins *)

Section CorsFacts.
Import PyStr Spec Server.

Lemma lstrip_idem (s : string) : lstrip (lstrip s) = lstrip s.
Proof.
  induction s as [|c s IH]; simpl; [reflexivity|].
  destruct (isspace c) eqn:E; [exact IH|]. simpl. now rewrite E.
Qed.

Lemma lstrip_head (s : string) :
  lstrip s = s -> s = "" \/ exists c t, s = String c t /\ isspace c = false.
Proof.
  destruct s as [|c t]; [now left|]. intros H. right. exists c, t.
  split; [reflexivity|].
  destruct (isspace c) eqn:E; [|reflexivity]. exfalso.
  simpl in H. rewrite E in H.
  destruct (lstrip_decomp t) as (a & Ha & _).
  assert (L : len t = len a + len (lstrip t))
    by (rewrite Ha at 1; apply len_sapp).
  rewrite H in L. unfold len in L. simpl in L. lia.
Qed.

Lemma rstrip_idem (s : string) : rstrip (rstrip s) = rstrip s.
Proof.
  induction s as [|c s IH]; simpl; [reflexivity|].
  destruct (isspace c && is_empty (rstrip s)) eqn:E; [reflexivity|].
  simpl. now rewrite IH, E.
Qed.

Lemma strip_idem (s : string) : strip (strip s) = strip s.
Proof.
  unfold strip.
  assert (H : lstrip (rstrip (lstrip s)) = rstrip (lstrip s)).
  { destruct (lstrip_head (lstrip s) (lstrip_idem s))
      as [E|(c & t & E & Hc)]; rewrite E; [reflexivity|].
    simpl. rewrite Hc. simpl. now rewrite Hc. }
  now rewrite H, rstrip_idem.
Qed.

Lemma occurs_in_strip (sub l : string) :
  Occurs sub (strip l) -> Occurs sub l.
Proof.
  intros (x & y & E).
  destruct (strip_decomp l) as (a & b & Hl & _ & _).
  exists (a ++ x), (y ++ b). rewrite Hl at 1. rewrite E.
  now rewrite !sapp_assoc.
Qed.

(** The CORS origins: without the variable, or with the value [*], any
    origin is allowed; any other value is cut at its commas and every
    piece is trimmed, so that there is one origin more than there are
    commas, and no origin begins or ends with white space or contains a
    comma.  An empty value gives the single origin [""]. *)
Theorem cors_origins_are_trimmed_fields :
  forall v : string,
    configure_cors None = AnyOrigin
    /\ configure_cors (Some "*") = AnyOrigin
    /\ configure_cors (Some "") = Origins [""]
    /\ (v <> "*" ->
        exists fields,
          fields <> []
          /\ join "," fields = v
          /\ Forall (fun f => ~ Occurs "," f) fields
          /\ configure_cors (Some v) = Origins (map strip fields)
          /\ Forall (fun o => strip o = o /\ ~ Occurs "," o)
               (map strip fields)).
Proof.
  intros v. repeat split.
  intros Hne. exists (split "," v).
  split; [apply split_not_nil|]. split; [apply join_split|].
  split; [apply split_no_sep|]. split.
  - unfold configure_cors. apply String.eqb_neq in Hne. now rewrite Hne.
  - apply Forall_forall. intros o Hin. apply in_map_iff in Hin.
    destruct Hin as (f & <- & Hf). split; [apply strip_idem|].
    intros H. apply occurs_in_strip in H.
    pose proof (split_no_sep "," v) as F. rewrite Forall_forall in F.
    exact (F f Hf H).
Qed.

End CorsFacts.

(** ** Further runs on concrete inputs *)

Section MoreRuns.
Import PyStr Spec Fixtures.

Example split_on_two_characters :
  split_str "v=" "xv=yv=z" = ["x"; "y"; "z"]
  /\ split_str "aa" "aaa" = [""; "a"]
  /\ split_str "v=" "vv=" = ["v"; ""].
Proof. now repeat split. Qed.

Example video_id_of_test_url :
  YtDlp.video_id_of YtDlp.test_url = "dQw4w9WgXcQ"
  /\ YtDlp.video_id_of short_url = "unknown"
  /\ YtDlp.video_id_of "https://www.youtube.com/watch?v=abc&rv=1" = "abc&r".
Proof. now repeat split. Qed.

Example join_rejects_a_number :
  Poc.json3_text
    (Server.JObj
       [("events",
         Server.JArr
           [Server.JObj
              [("segs",
                Server.JArr [Server.JObj [("utf8", Server.JNum 7)]])]])])
  = inl (Server.type_error
           "sequence item 0: expected str instance, int found").
Proof. reflexivity. Qed.

Example cors_two_origins :
  Server.configure_cors (Some "https://a.example, https://b.example ,")
  = Server.Origins ["https://a.example"; "https://b.example"; ""].
Proof. reflexivity. Qed.

Example web_client_command :
  YtDlp.output_template
    (YtDlp.strategy_2_cmd "/tmp/ytdlp_advanced" YtDlp.test_url)
  = Some "/tmp/ytdlp_advanced/dQw4w9WgXcQ_web.%(ext)s"
  /\ artifact_pattern "web_client" "dQw4w9WgXcQ"
     = "dQw4w9WgXcQ_web_client.*.vtt".
Proof. now split. Qed.

End MoreRuns.
